(** * frontpage: a static site generator (frontpage.py)

    A shallow embedding of the page model, the metadata extractor, the
    collection aggregator and the build orchestrator of [frontpage.py],
    followed by the properties the specification states about them.

    Conventions of the embedding:
    - a Python [str] is a [string] (a sequence of bytes, read as UTF-8), so
      that [str.encode()] is the identity on the bytes; [str.lower] and the
      digit classes of [strptime] are modelled on the ASCII range;
    - an exception is a value of [exn], and a computation that may raise
      returns a [result];
    - the file system is a finite map from path strings to file contents
      together with the listing of every directory, in enumeration order;
    - a page object is a record, [load] returns the record as the method
      leaves the object, and the pages of a list are distinct objects;
    - the template engine, the Markdown converter and the configuration
      module are collaborators outside the file: they are the fields of the
      class [Env]. *)

From Stdlib Require Import ZArith List String Ascii Bool Lia Sorted.
From stdpp Require Import base option list strings gmap.

Open Scope string_scope.
Open Scope list_scope.
Open Scope Z_scope.

(** ** Exceptions *)

Inductive exn : Type :=
| FileNotFoundError (path : string)
| ValueError (msg : string)
| TypeError (msg : string)
| Exception (msg : string).

Inductive result (A : Type) : Type :=
| Ok (a : A)
| Raise (e : exn).
Arguments Ok {A} a.
Arguments Raise {A} e.

Definition bind {A B : Type} (m : result A) (k : A -> result B) : result B :=
  match m with
  | Ok a => k a
  | Raise e => Raise e
  end.

Notation "'do' x <- m ; k" := (bind m (fun x => k))
  (at level 10, x name, m at level 100, k at level 200).

Definition raises {A : Type} (m : result A) : Prop :=
  exists e, m = Raise e.

(** [for x in l: st = body x st], stopping at the first exception. *)
Fixpoint for_each {A S : Type} (body : A -> S -> result S) (l : list A) (st : S)
  : result S :=
  match l with
  | [] => Ok st
  | x :: l' => do st' <- body x st; for_each body l' st'
  end.

(** [[f(x) for x in l]], stopping at the first exception. *)
Fixpoint map_result {A B : Type} (f : A -> result B) (l : list A) : result (list B) :=
  match l with
  | [] => Ok []
  | x :: l' => do y <- f x; do ys <- map_result f l'; Ok (y :: ys)
  end.

(** ** Strings *)

Module str.

Definition code (c : ascii) : Z := Z.of_N (N_of_ascii c).

Definition chr (n : Z) : ascii := ascii_of_N (Z.to_N n).

Fixpoint chars (s : string) : list ascii :=
  match s with
  | EmptyString => []
  | String c s' => c :: chars s'
  end.

(** [s.encode()]: the bytes of the string. *)
Definition encode (s : string) : list Z := map code (chars s).

Definition lower_char (c : ascii) : ascii :=
  if (65 <=? code c) && (code c <=? 90) then chr (code c + 32) else c.

(** [s.lower()] *)
Fixpoint lower (s : string) : string :=
  match s with
  | EmptyString => EmptyString
  | String c s' => String (lower_char c) (lower s')
  end.

(** [s.startswith(p)] *)
Fixpoint startswith (s p : string) : bool :=
  match p, s with
  | EmptyString, _ => true
  | String _ _, EmptyString => false
  | String a p', String b s' => Ascii.eqb a b && startswith s' p'
  end.

Fixpoint rev_acc (s acc : string) : string :=
  match s with
  | EmptyString => acc
  | String c s' => rev_acc s' (String c acc)
  end.

Definition rev (s : string) : string := rev_acc s EmptyString.

(** [s.endswith(p)] *)
Definition endswith (s p : string) : bool := startswith (rev s) (rev p).

(** [s.rfind(c)] for a single character: the last index of [c], or -1. *)
Fixpoint rfind_from (i : Z) (c : ascii) (s : string) (found : Z) : Z :=
  match s with
  | EmptyString => found
  | String a s' => rfind_from (i + 1) c s' (if Ascii.eqb a c then i else found)
  end.

Definition rfind (s : string) (c : ascii) : Z := rfind_from 0 c s (-1).

(** [s[:n]] and [s[n:]] for [0 <= n]. *)
Fixpoint take (n : nat) (s : string) : string :=
  match n, s with
  | S n', String c s' => String c (take n' s')
  | _, _ => EmptyString
  end.

Fixpoint drop (n : nat) (s : string) : string :=
  match n, s with
  | S n', String _ s' => drop n' s'
  | _, _ => s
  end.

Definition digit_char (d : Z) : ascii := chr (48 + d).

(** [str(n)] for [0 <= n]: the decimal digits, most significant first.
    [fuel] bounds the number of digits. *)
Fixpoint of_Z_acc (fuel : nat) (n : Z) (acc : string) : string :=
  match fuel with
  | O => acc
  | S fuel' =>
      let acc' := String (digit_char (n mod 10)) acc in
      if n / 10 =? 0 then acc' else of_Z_acc fuel' (n / 10) acc'
  end.

Definition of_Z (n : Z) : string := of_Z_acc (S (Z.to_nat (Z.log2 n))) n EmptyString.

End str.

(** ** hashlib.sha1 *)

Module hashlib.

Definition mask32 : Z := 0xFFFFFFFF.

Definition add32 (x y : Z) : Z := Z.land (x + y) mask32.

Definition rotl (n x : Z) : Z :=
  Z.land (Z.lor (Z.shiftl x n) (Z.shiftr x (32 - n))) mask32.

Definition not32 (x : Z) : Z := Z.lxor x mask32.

(** The [n] low bytes of [x], most significant first. *)
Fixpoint be_bytes (n : nat) (x : Z) : list Z :=
  match n with
  | O => []
  | S n' => Z.land (Z.shiftr x (8 * Z.of_nat n')) 255 :: be_bytes n' x
  end.

(** Message padding: a 1 bit, zeros up to 56 modulo 64 bytes, then the
    length in bits as a 64-bit big-endian integer. *)
Definition pad (msg : list Z) : list Z :=
  let l := Z.of_nat (length msg) in
  let zeros := Z.to_nat ((55 - l) mod 64) in
  msg ++ [128] ++ repeat 0 zeros ++ be_bytes 8 (8 * l).

Fixpoint be_words (n : nat) (bytes : list Z) : list Z :=
  match n with
  | O => []
  | S n' =>
      match bytes with
      | b0 :: b1 :: b2 :: b3 :: rest =>
          Z.lor (Z.shiftl b0 24) (Z.lor (Z.shiftl b1 16) (Z.lor (Z.shiftl b2 8) b3))
          :: be_words n' rest
      | _ => []
      end
  end.

(** Message schedule; [recent] holds the words computed so far, the latest
    first. *)
Fixpoint schedule (n : nat) (recent : list Z) : list Z :=
  match n with
  | O => List.rev recent
  | S n' =>
      let w := rotl 1 (Z.lxor (Z.lxor (nth 2 recent 0) (nth 7 recent 0))
                              (Z.lxor (nth 13 recent 0) (nth 15 recent 0))) in
      schedule n' (w :: recent)
  end.

Definition f (t b c d : Z) : Z :=
  if t <? 20 then Z.lor (Z.land b c) (Z.land (not32 b) d)
  else if t <? 40 then Z.lxor (Z.lxor b c) d
  else if t <? 60 then Z.lor (Z.lor (Z.land b c) (Z.land b d)) (Z.land c d)
  else Z.lxor (Z.lxor b c) d.

Definition K (t : Z) : Z :=
  if t <? 20 then 0x5A827999
  else if t <? 40 then 0x6ED9EBA1
  else if t <? 60 then 0x8F1BBCDC
  else 0xCA62C1D6.

Record state : Type := State { h0 : Z; h1 : Z; h2 : Z; h3 : Z; h4 : Z }.

Definition round (tw : Z * Z) (s : state) : state :=
  let '(t, w) := tw in
  let temp :=
    add32 (add32 (add32 (add32 (rotl 5 (h0 s)) (f t (h1 s) (h2 s) (h3 s))) (h4 s)) (K t)) w in
  State temp (h0 s) (rotl 30 (h1 s)) (h2 s) (h3 s).

Fixpoint index_from {A : Type} (i : Z) (l : list A) : list (Z * A) :=
  match l with
  | [] => []
  | x :: l' => (i, x) :: index_from (i + 1) l'
  end.

Definition compress (block : list Z) (s : state) : state :=
  let w := schedule 64 (List.rev (be_words 16 block)) in
  let s' := fold_left (fun acc tw => round tw acc) (index_from 0 w) s in
  State (add32 (h0 s) (h0 s')) (add32 (h1 s) (h1 s')) (add32 (h2 s) (h2 s'))
        (add32 (h3 s) (h3 s')) (add32 (h4 s) (h4 s')).

Fixpoint blocks (n : nat) (bytes : list Z) (s : state) : state :=
  match n with
  | O => s
  | S n' => blocks n' (skipn 64 bytes) (compress (firstn 64 bytes) s)
  end.

Definition init : state :=
  State 0x67452301 0xEFCDAB89 0x98BADCFE 0x10325476 0xC3D2E1F0.

Definition sha1 (msg : list Z) : state :=
  let padded := pad msg in
  blocks (Nat.div (length padded) 64) padded init.

Definition hex_digits : list ascii :=
  str.chars "0123456789abcdef".

Definition hex_digit (n : Z) : ascii := nth (Z.to_nat n) hex_digits "f"%char.

(** The eight hexadecimal digits of a 32-bit word. *)
Definition hex32 (w : Z) (rest : string) : string :=
  fold_right (fun i acc => String (hex_digit (Z.land (Z.shiftr w (4 * i)) 15)) acc)
             rest [7; 6; 5; 4; 3; 2; 1; 0].

(** [hashlib.sha1(b).hexdigest()] *)
Definition hexdigest (s : state) : string :=
  hex32 (h0 s) (hex32 (h1 s) (hex32 (h2 s) (hex32 (h3 s) (hex32 (h4 s) EmptyString)))).

End hashlib.

(** ** os.path (POSIX) *)

Module os_path.

(** [os.path.join(a, b)] *)
Definition join (a b : string) : string :=
  if str.startswith b "/" then b
  else if String.eqb a "" || str.endswith a "/" then a +:+ b
  else a +:+ "/" +:+ b.

(** The loop of [genericpath._splitext] that skips the leading dots of the
    file name: is there a character other than the dot among the first [n]
    characters of [s]? *)
Fixpoint has_non_dot (n : nat) (s : string) : bool :=
  match n, s with
  | S n', String c s' => if Ascii.eqb c "." then has_non_dot n' s' else true
  | _, _ => false
  end.

(** [os.path.splitext(p)] *)
Definition splitext (p : string) : string * string :=
  let sepIndex := str.rfind p "/" in
  let dotIndex := str.rfind p "." in
  if sepIndex <? dotIndex then
    let filenameIndex := sepIndex + 1 in
    if has_non_dot (Z.to_nat (dotIndex - filenameIndex))
                   (str.drop (Z.to_nat filenameIndex) p)
    then (str.take (Z.to_nat dotIndex) p, str.drop (Z.to_nat dotIndex) p)
    else (p, "")
  else (p, "").

End os_path.

(** ** datetime: [strptime] with the format ["%m-%d-%Y"], [strftime] with the
    format ["%b %-d, %Y"], and the ordering of timestamps *)

Module datetime.

(** A [datetime.datetime]. The format has no time-of-day directive, so
    hour, minute, second and microsecond are always 0 and are left out. *)
Record t : Type := Datetime { year : Z; month : Z; day : Z }.

(** *** The regular expression [_strptime] compiles the format to

    [(?P<m>1[0-2]|0[1-9]|[1-9])-(?P<d>3[0-1]|[1-2]\d|0[1-9]|[1-9]| [1-9])-(?P<Y>\d\d\d\d)]

    A matcher maps the input to the list of its ways to match a prefix (the
    text matched and the rest), in the order in which the backtracking
    engine tries them. *)

Definition re : Type := string -> list (string * string).

Definition cls (p : ascii -> bool) : re :=
  fun s => match s with
           | String c s' => if p c then [(String c EmptyString, s')] else []
           | EmptyString => []
           end.

Definition range (lo hi : ascii) : re :=
  cls (fun c => (str.code lo <=? str.code c) && (str.code c <=? str.code hi)).

Definition lit (a : ascii) : re := cls (Ascii.eqb a).

Definition digit : re := range "0" "9".

Definition seq (r1 r2 : re) : re :=
  fun s => flat_map (fun '(m1, s1) => map (fun '(m2, s2) => (m1 +:+ m2, s2)) (r2 s1)) (r1 s).

Definition alt (r1 r2 : re) : re := fun s => r1 s ++ r2 s.

Definition re_m : re :=
  alt (seq (lit "1") (range "0" "2")) (alt (seq (lit "0") (range "1" "9")) (range "1" "9")).

Definition re_d : re :=
  alt (seq (lit "3") (range "0" "1"))
    (alt (seq (range "1" "2") digit)
       (alt (seq (lit "0") (range "1" "9"))
          (alt (range "1" "9") (seq (lit " ") (range "1" "9"))))).

Definition re_Y : re := seq digit (seq digit (seq digit digit)).

(** The groups [m], [d] and [Y] of every match, with the unmatched rest. *)
Definition format_regex (s : string) : list (string * string * string * string) :=
  flat_map (fun '(m, s1) =>
    flat_map (fun '(_, s2) =>
      flat_map (fun '(d, s3) =>
        flat_map (fun '(_, s4) =>
          map (fun '(Y, s5) => (m, d, Y, s5)) (re_Y s4))
        (lit "-" s3))
      (re_d s2))
    (lit "-" s1))
  (re_m s).

(** [int(s)] on the text of a group: decimal digits, after optional
    white space. *)
Fixpoint int_acc (s : string) (acc : Z) : Z :=
  match s with
  | EmptyString => acc
  | String c s' =>
      if (48 <=? str.code c) && (str.code c <=? 57)
      then int_acc s' (10 * acc + (str.code c - 48))
      else int_acc s' acc
  end.

Definition int (s : string) : Z := int_acc s 0.

Definition is_leap (y : Z) : bool :=
  (y mod 4 =? 0) && (negb (y mod 100 =? 0) || (y mod 400 =? 0)).

Definition days_in_month (y m : Z) : Z :=
  if m =? 2 then (if is_leap y then 29 else 28)
  else if (m =? 4) || (m =? 6) || (m =? 9) || (m =? 11) then 30
  else 31.

(** The checks of the [datetime.date] constructor. *)
Definition valid (y m d : Z) : bool :=
  (1 <=? y) && (y <=? 9999) && (1 <=? m) && (m <=? 12)
  && (1 <=? d) && (d <=? days_in_month y m).

(** [datetime.datetime.strptime(data, "%m-%d-%Y")] *)
Definition strptime (data : string) : result t :=
  match format_regex data with
  | [] => Raise (ValueError "time data does not match format '%m-%d-%Y'")
  | (m, d, Y, rest) :: _ =>
      if negb (String.eqb rest "") then Raise (ValueError "unconverted data remains")
      else
        let year := int Y in
        let month := int m in
        let day := int d in
        if valid year month day then Ok (Datetime year month day)
        else Raise (ValueError "day is out of range for month")
  end.

Definition month_abbr : list string :=
  ["Jan"; "Feb"; "Mar"; "Apr"; "May"; "Jun"; "Jul"; "Aug"; "Sep"; "Oct"; "Nov"; "Dec"].

(** [%b] in the C locale. *)
Definition fmt_b (x : t) : string := nth (Z.to_nat (month x - 1)) month_abbr "".

(** [%-d]: the day of the month, not padded. *)
Definition fmt_d_unpadded (x : t) : string := str.of_Z (day x).

(** [%Y]: the year with century (the C library does not pad it). *)
Definition fmt_Y (x : t) : string := str.of_Z (year x).

(** [x.strftime("%b %-d, %Y")] *)
Definition strftime (x : t) : string :=
  fmt_b x +:+ " " +:+ fmt_d_unpadded x +:+ ", " +:+ fmt_Y x.

(** [x < y]: timestamps compare as the tuples of their fields. *)
Definition lt (x y : t) : bool :=
  (year x <? year y)
  || ((year x =? year y)
      && ((month x <? month y) || ((month x =? month y) && (day x <? day y)))).

End datetime.

(** ** The file system *)

Record FS : Type := {
  files : gmap string string;        (* regular files: path to content *)
  dirs : gmap string (list string)   (* directories: path to entry names, as enumerated *)
}.

(** [open(path, "r").read()] *)
Definition read_file (fs : FS) (path : string) : result string :=
  match files fs !! path with
  | Some text => Ok text
  | None => Raise (FileNotFoundError path)
  end.

(** [os.listdir(path)] *)
Definition listdir (fs : FS) (path : string) : result (list string) :=
  match dirs fs !! path with
  | Some names => Ok names
  | None => Raise (FileNotFoundError path)
  end.

(** [os.path.isfile(path)] *)
Definition isfile (fs : FS) (path : string) : bool :=
  match files fs !! path with
  | Some _ => true
  | None => false
  end.

(** [open(path, "w+").write(data)], after the directories above [path] have
    been created. Listings are read by the aggregator only, before anything
    is written, and are left as they are. *)
Definition write_file (fs : FS) (path data : string) : FS :=
  {| files := <[path := data]> (files fs); dirs := dirs fs |}.

(** ** The page model *)

(** The value of [markdown2.markdown]: the HTML text with its [metadata]
    attribute, a dictionary in insertion order. *)
Record Markdown : Type := {
  html : string;
  metadata : list (string * string)
}.

Module PostPage.
Record t : Type := Make {
  name : string;
  title : string;
  parent : string;            (* the owning collection, by its [name] *)
  src : string;
  target : string;
  content : option Markdown;
  output : option string;
  hidden : bool;
  datetime : option datetime.t;
  date : option string;
  subtitle : option string;
  uuid : string
}.

Definition set_title (v : string) (p : t) : t :=
  Make (name p) v (parent p) (src p) (target p) (content p) (output p) (hidden p)
       (datetime p) (date p) (subtitle p) (uuid p).
Definition set_subtitle (v : option string) (p : t) : t :=
  Make (name p) (title p) (parent p) (src p) (target p) (content p) (output p) (hidden p)
       (datetime p) (date p) v (uuid p).
Definition set_datetime (v : option datetime.t) (p : t) : t :=
  Make (name p) (title p) (parent p) (src p) (target p) (content p) (output p) (hidden p)
       v (date p) (subtitle p) (uuid p).
Definition set_date (v : option string) (p : t) : t :=
  Make (name p) (title p) (parent p) (src p) (target p) (content p) (output p) (hidden p)
       (datetime p) v (subtitle p) (uuid p).
Definition set_hidden (v : bool) (p : t) : t :=
  Make (name p) (title p) (parent p) (src p) (target p) (content p) (output p) v
       (datetime p) (date p) (subtitle p) (uuid p).
Definition set_content (v : option Markdown) (p : t) : t :=
  Make (name p) (title p) (parent p) (src p) (target p) v (output p) (hidden p)
       (datetime p) (date p) (subtitle p) (uuid p).
Definition set_output (v : option string) (p : t) : t :=
  Make (name p) (title p) (parent p) (src p) (target p) (content p) v (hidden p)
       (datetime p) (date p) (subtitle p) (uuid p).
End PostPage.

Module SinglePage.
Record t : Type := Make {
  name : string;
  title : string;
  src : string;
  target : string;
  content : option Markdown;
  output : option string;
  hidden : bool
}.

Definition set_name (v : string) (p : t) : t :=
  Make v (title p) (src p) (target p) (content p) (output p) (hidden p).
Definition set_title (v : string) (p : t) : t :=
  Make (name p) v (src p) (target p) (content p) (output p) (hidden p).
Definition set_target (v : string) (p : t) : t :=
  Make (name p) (title p) (src p) v (content p) (output p) (hidden p).
Definition set_content (v : option Markdown) (p : t) : t :=
  Make (name p) (title p) (src p) (target p) v (output p) (hidden p).
Definition set_output (v : option string) (p : t) : t :=
  Make (name p) (title p) (src p) (target p) (content p) v (hidden p).
End SinglePage.

Module CollectionPage.
Record t : Type := Make {
  name : string;
  title : string;
  src : string;
  target : string;
  output : option string;
  hidden : bool;
  posts : list PostPage.t
}.

Definition set_posts (v : list PostPage.t) (c : t) : t :=
  Make (name c) (title c) (src c) (target c) (output c) (hidden c) v.
Definition set_output (v : option string) (c : t) : t :=
  Make (name c) (title c) (src c) (target c) v (hidden c) (posts c).
End CollectionPage.

(** A page with its class. A [FrontPage] is a [SinglePage] with the same
    attributes; the top-level pages, which have no parent, carry none. *)
Inductive Page : Type :=
| ASinglePage (p : SinglePage.t)
| AFrontPage (p : SinglePage.t)
| ACollectionPage (c : CollectionPage.t)
| APostPage (p : PostPage.t).

Definition Page_name (p : Page) : string :=
  match p with
  | ASinglePage s | AFrontPage s => SinglePage.name s
  | ACollectionPage c => CollectionPage.name c
  | APostPage q => PostPage.name q
  end.

Definition Page_title (p : Page) : string :=
  match p with
  | ASinglePage s | AFrontPage s => SinglePage.title s
  | ACollectionPage c => CollectionPage.title c
  | APostPage q => PostPage.title q
  end.

Definition Page_hidden (p : Page) : bool :=
  match p with
  | ASinglePage s | AFrontPage s => SinglePage.hidden s
  | ACollectionPage c => CollectionPage.hidden c
  | APostPage q => PostPage.hidden q
  end.

Definition Page_target (p : Page) : string :=
  match p with
  | ASinglePage s | AFrontPage s => SinglePage.target s
  | ACollectionPage c => CollectionPage.target c
  | APostPage q => PostPage.target q
  end.

Definition Page_output (p : Page) : option string :=
  match p with
  | ASinglePage s | AFrontPage s => SinglePage.output s
  | ACollectionPage c => CollectionPage.output c
  | APostPage q => PostPage.output q
  end.

(** [Page.type_name]: the name of the class of the object. *)
Definition type_name (p : Page) : string :=
  match p with
  | ASinglePage _ => "SinglePage"
  | AFrontPage _ => "FrontPage"
  | ACollectionPage _ => "CollectionPage"
  | APostPage _ => "PostPage"
  end.

(** *** Constructors *)

(** [SinglePage.__init__(name, title, hidden)] *)
Definition SinglePage_init (name title : string) (hidden : bool) : SinglePage.t :=
  {| SinglePage.name := name; SinglePage.title := title; SinglePage.hidden := hidden;
     SinglePage.src := name +:+ ".md"; SinglePage.target := name;
     SinglePage.content := None; SinglePage.output := None |}.

(** [FrontPage.__init__(name, title)] *)
Definition FrontPage_init (name title : string) : SinglePage.t :=
  let self := SinglePage_init name title false in
  let self := SinglePage.set_name "home" self in
  let self := SinglePage.set_title "Home" self in
  SinglePage.set_target "" self.

(** [CollectionPage.__init__(name, title, hidden)] *)
Definition CollectionPage_init (name title : string) (hidden : bool) : CollectionPage.t :=
  {| CollectionPage.name := name; CollectionPage.title := title;
     CollectionPage.hidden := hidden; CollectionPage.src := name;
     CollectionPage.target := name; CollectionPage.output := None;
     CollectionPage.posts := [] |}.

(** [PostPage.__init__(name, title, parent)]; [parent] is [None] or a page. *)
Definition PostPage_init (name title : string) (parent : option Page) : result PostPage.t :=
  match parent with
  | Some (ACollectionPage c) =>
      let uuid := hashlib.hexdigest (hashlib.sha1 (str.encode name)) in
      Ok {| PostPage.name := name; PostPage.title := title; PostPage.hidden := false;
            PostPage.parent := CollectionPage.name c;
            PostPage.src := os_path.join (CollectionPage.name c) (name +:+ ".md");
            PostPage.uuid := uuid;
            PostPage.target := os_path.join (CollectionPage.name c) uuid;
            PostPage.content := None; PostPage.output := None;
            PostPage.datetime := None; PostPage.date := None; PostPage.subtitle := None |}
  | _ => Raise (Exception "post page has no parent or parent is non-collection")
  end.

(** ** The collaborators *)

(** An entry of the navigation list. *)
Record Nav : Type := {
  nav_name : string;
  nav_title : string;
  nav_type_name : string
}.

Class Env : Type := {
  (** [config.input_dir] and [config.output_dir] *)
  input_dir : string;
  output_dir : string;
  (** [replace_assets_url]: the Jinja pass over the source text *)
  replace_assets_url : string -> string;
  (** [markdown2.markdown(text, extras=extras)] *)
  markdown2_markdown : string -> list string -> Markdown;
  (** [page_template.render(options=options, navs=navs, page=self)] *)
  page_template_render : list Nav -> Page -> string;
  (** [collection_template.render(options=options, navs=navs, page=self, posts=posts)] *)
  collection_template_render : list Nav -> Page -> list PostPage.t -> string;
  (** [build_skeleton(output_dir)] *)
  build_skeleton : string -> FS -> result FS
}.

Definition markdown_extras : list string :=
  ["fenced-code-blocks"; "target-blank-links"; "nofollow"; "footnotes"].

(** ** [list.sort(key=..., reverse=...)]

    The sort is stable and compares keys with [<] only; with [reverse] the
    list is reversed, sorted and reversed again, which keeps elements with
    equal keys in their original order. A comparison may raise, and the
    exception leaves the sort. The insertion sort below stands for the
    merge sort of the interpreter: both are stable, and both compare every
    element of a list of two or more at least once. *)

Module list_sort.
Section Sort.
Context {A K : Type} (key : A -> K) (lt : K -> K -> result bool).

Fixpoint insert (x : A) (l : list A) : result (list A) :=
  match l with
  | [] => Ok [x]
  | y :: l' =>
      do b <- lt (key y) (key x);
      if b then (do r <- insert x l'; Ok (y :: r)) else Ok (x :: l)
  end.

Fixpoint sort_asc (l : list A) : result (list A) :=
  match l with
  | [] => Ok []
  | x :: l' => do r <- sort_asc l'; insert x r
  end.

Definition sort (reverse : bool) (l : list A) : result (list A) :=
  if reverse then do r <- sort_asc (List.rev l); Ok (List.rev r)
  else sort_asc l.
End Sort.
End list_sort.

(** [a < b] on the values of the attribute [datetime]: a timestamp, or [None]
    when the post had no [date]. *)
Definition key_lt (a b : option datetime.t) : result bool :=
  match a, b with
  | Some x, Some y => Ok (datetime.lt x y)
  | _, _ => Raise (TypeError "'<' not supported between instances")
  end.

(** ** Loading *)

(** [SinglePage.load(navs)], inherited by [FrontPage]: [cls] is the class of
    [self]. *)
Definition SinglePage_load `{Env} (cls : SinglePage.t -> Page) (navs : list Nav) (fs : FS)
    (self : SinglePage.t) : result SinglePage.t :=
  let src_path := os_path.join input_dir (SinglePage.src self) in
  do text <- read_file fs src_path;
  let self := SinglePage.set_content
                (Some (markdown2_markdown (replace_assets_url text) markdown_extras)) self in
  Ok (SinglePage.set_output (Some (page_template_render navs (cls self))) self).

(** The body of the loop [for k in content.metadata], with [v] the value
    [content.metadata[k]]. *)
Definition metadata_step (kv : string * string) (self : PostPage.t) : result PostPage.t :=
  let '(k, v) := kv in
  if String.eqb k "title" then Ok (PostPage.set_title v self)
  else if String.eqb k "subtitle" then Ok (PostPage.set_subtitle (Some v) self)
  else if String.eqb k "date" then
    do dt <- datetime.strptime v;
    let self := PostPage.set_datetime (Some dt) self in
    Ok (PostPage.set_date (Some (datetime.strftime dt)) self)
  else if String.eqb k "hidden" then
    if String.eqb (str.lower v) "true" then Ok (PostPage.set_hidden true self)
    else Ok self
  else Ok self.

(** [PostPage.load(navs)] *)
Definition PostPage_load `{Env} (navs : list Nav) (fs : FS) (self : PostPage.t)
  : result PostPage.t :=
  let src_path := os_path.join input_dir (PostPage.src self) in
  do text <- read_file fs src_path;
  let content := markdown2_markdown (replace_assets_url text) (markdown_extras ++ ["metadata"]) in
  do self <- for_each metadata_step (metadata content) self;
  let self := PostPage.set_content (Some content) self in
  Ok (PostPage.set_output (Some (page_template_render navs (APostPage self))) self).

(** The body of the loop [for filename in os.listdir(src_path)]. *)
Definition discover_step (fs : FS) (self : CollectionPage.t) (src_path filename : string)
    (posts : list PostPage.t) : result (list PostPage.t) :=
  let path := os_path.join src_path filename in
  if isfile fs path && str.endswith path ".md" then
    let name := fst (os_path.splitext filename) in
    do p <- PostPage_init name name (Some (ACollectionPage self));
    Ok (posts ++ [p])
  else Ok posts.

(** [CollectionPage.load(navs)] *)
Definition CollectionPage_load `{Env} (navs : list Nav) (fs : FS) (self : CollectionPage.t)
  : result CollectionPage.t :=
  let src_path := os_path.join input_dir (CollectionPage.src self) in
  do names <- listdir fs src_path;
  do posts <- for_each (discover_step fs self src_path) names (CollectionPage.posts self);
  do posts <- map_result (PostPage_load navs fs) posts;
  do posts <- list_sort.sort PostPage.datetime key_lt true posts;
  let self := CollectionPage.set_posts posts self in
  Ok (CollectionPage.set_output
        (Some (collection_template_render navs (ACollectionPage self) posts)) self).

(** [p.load(navs)], by the class of [p]. *)
Definition Page_load `{Env} (navs : list Nav) (fs : FS) (p : Page) : result Page :=
  match p with
  | ASinglePage s => do s <- SinglePage_load ASinglePage navs fs s; Ok (ASinglePage s)
  | AFrontPage s => do s <- SinglePage_load AFrontPage navs fs s; Ok (AFrontPage s)
  | ACollectionPage c => do c <- CollectionPage_load navs fs c; Ok (ACollectionPage c)
  | APostPage q => do q <- PostPage_load navs fs q; Ok (APostPage q)
  end.

(** ** Writing *)

(** The path [Page.write] writes to. *)
Definition index_path (out_dir target : string) : string :=
  os_path.join (os_path.join out_dir target) "index.html".

(** [Page.write(output_dir)], on the attributes [target] and [output]. *)
Definition Page_write (target : string) (output : option string) (out_dir : string) (fs : FS)
  : result FS :=
  let path := index_path out_dir target in
  match output with
  | Some data => Ok (write_file fs path data)
  | None => Raise (TypeError "write() argument must be str, not None")
  end.

(** [CollectionPage.write(output_dir)] *)
Definition CollectionPage_write (self : CollectionPage.t) (out_dir : string) (fs : FS)
  : result FS :=
  do fs <- for_each (fun p fs => Page_write (PostPage.target p) (PostPage.output p) out_dir fs)
             (CollectionPage.posts self) fs;
  Page_write (CollectionPage.target self) (CollectionPage.output self) out_dir fs.

(** [p.write(output_dir)], by the class of [p]. *)
Definition write (p : Page) (out_dir : string) (fs : FS) : result FS :=
  match p with
  | ACollectionPage c => CollectionPage_write c out_dir fs
  | _ => Page_write (Page_target p) (Page_output p) out_dir fs
  end.

(** ** The build *)

(** The navigation list of [build_site]. *)
Definition nav_entry (p : Page) : Nav :=
  {| nav_name := Page_name p; nav_title := Page_title p; nav_type_name := type_name p |}.

Definition navigation (pages : list Page) : list Nav :=
  map nav_entry (List.filter (fun p => negb (Page_hidden p)) pages).

(** [build_site(pages, output_dir)]: the pages as loaded and the file system
    as written. *)
Definition build_site `{Env} (pages : list Page) (out_dir : string) (fs : FS)
  : result (list Page * FS) :=
  let navs := navigation pages in
  do fs <- build_skeleton out_dir fs;
  do pages <- map_result (Page_load navs fs) pages;
  do fs <- for_each (fun p fs => write p out_dir fs) pages fs;
  Ok (pages, fs).

(** ** The vocabulary of the properties *)

(** The attributes the loop never assigns. *)
Definition same_identity (p q : PostPage.t) : Prop :=
  PostPage.name q = PostPage.name p /\ PostPage.parent q = PostPage.parent p
  /\ PostPage.src q = PostPage.src p /\ PostPage.target q = PostPage.target p
  /\ PostPage.uuid q = PostPage.uuid p.

(** Is the pair the key [hidden] with a value that is ["true"] up to case? *)
Definition hides (kv : string * string) : bool :=
  String.eqb (fst kv) "hidden" && String.eqb (str.lower (snd kv)) "true".

(** The metadata [markdown2] extracts from the source of a post. *)
Definition post_content `{Env} (text : string) : Markdown :=
  markdown2_markdown (replace_assets_url text) (markdown_extras ++ ["metadata"]).

(** [a == b] on timestamps. *)
Definition datetime_eqb (a b : datetime.t) : bool :=
  (datetime.year a =? datetime.year b) && (datetime.month a =? datetime.month b)
  && (datetime.day a =? datetime.day b).

Section Timestamps.
Context {A : Type} (key : A -> option datetime.t).

Definition dated (x : A) : Prop := exists a, key x = Some a.

(** Is the timestamp of [x] equal to [t]? *)
Definition at_time (t : datetime.t) (x : A) : bool :=
  match key x with
  | Some a => datetime_eqb a t
  | None => false
  end.

(** [x] may stand before [y] in ascending order: [key y < key x] is false. *)
Definition ascending (x y : A) : Prop :=
  exists a b, key x = Some a /\ key y = Some b /\ datetime.lt b a = false.

(** [x] may stand before [y] in descending order: the timestamp of [x] is
    strictly later, or the two are equal. *)
Definition descending (x y : A) : Prop :=
  exists a b, key x = Some a /\ key y = Some b /\ (datetime.lt b a = true \/ a = b).

End Timestamps.

(** The test of the discovery loop on a directory entry. *)
Definition is_post_file (fs : FS) (src_path filename : string) : bool :=
  isfile fs (os_path.join src_path filename)
  && str.endswith (os_path.join src_path filename) ".md".

(** The identifier the loop derives from a file name. *)
Definition post_identifier (filename : string) : string :=
  fst (os_path.splitext filename).

(** The post the loop constructs for a file name. *)
Definition constructed (c : CollectionPage.t) (filename : string) (p : PostPage.t) : Prop :=
  PostPage_init (post_identifier filename) (post_identifier filename)
    (Some (ACollectionPage c)) = Ok p.

Definition collection_src_path `{Env} (c : CollectionPage.t) : string :=
  os_path.join input_dir (CollectionPage.src c).

Definition sort_posts (posts : list PostPage.t) : result (list PostPage.t) :=
  list_sort.sort PostPage.datetime key_lt true posts.

Definition rendered `{Env} (navs : list Nav) (c : CollectionPage.t) (posts : list PostPage.t)
  : CollectionPage.t :=
  CollectionPage.set_output
    (Some (collection_template_render navs
             (ACollectionPage (CollectionPage.set_posts posts c)) posts))
    (CollectionPage.set_posts posts c).







(** *** Dates as text *)

(** A number on two digits, and on four. *)
Definition pad2 (n : Z) : string :=
  String (str.digit_char (n / 10)) (String (str.digit_char (n mod 10)) "").

Definition pad4 (n : Z) : string :=
  String (str.digit_char (n / 1000))
    (String (str.digit_char (n / 100 mod 10))
       (String (str.digit_char (n / 10 mod 10)) (String (str.digit_char (n mod 10)) ""))).

(** [x.strftime("%m-%d-%Y")], with the year on four digits: the text the
    format of [strptime] is meant to read back. *)
Definition strftime_mdY (x : datetime.t) : string :=
  pad2 (datetime.month x) +:+ "-" +:+ pad2 (datetime.day x) +:+ "-" +:+ pad4 (datetime.year x).

(** The matches of the part of the regular expression after the month, and
    of the part after the day. *)
Definition after_m (m s1 : string) : list (string * string * string * string) :=
  flat_map (fun '(_, s2) =>
    flat_map (fun '(d, s3) =>
      flat_map (fun '(_, s4) =>
        map (fun '(Y, s5) => (m, d, Y, s5)) (datetime.re_Y s4))
      (datetime.lit "-" s3))
    (datetime.re_d s2))
  (datetime.lit "-" s1).

Definition after_d (m d s3 : string) : list (string * string * string * string) :=
  flat_map (fun '(_, s4) => map (fun '(Y, s5) => (m, d, Y, s5)) (datetime.re_Y s4))
    (datetime.lit "-" s3).

(** ** A small site, for concrete runs *)

Module Demo.

Definition markdown (text : string) (extras : list string) : Markdown :=
  if String.eqb text "post a" then
    {| html := "<p>a</p>"; metadata := [("title", "T"); ("date", "01-05-2024")] |}
  else if String.eqb text "post b" then
    {| html := "<p>b</p>"; metadata := [("date", "12-31-2024"); ("hidden", "True")] |}
  else if String.eqb text "post c" then
    {| html := "<p>c</p>";
       metadata := [("hidden", "yes"); ("date", "1-5-2024"); ("tags", "x")] |}
  else if String.eqb text "post bad" then
    {| html := "<p>bad</p>"; metadata := [("date", "2024-01-05")] |}
  else {| html := text; metadata := [] |}.

Definition env : Env := {|
  input_dir := "in";
  output_dir := "out";
  replace_assets_url := fun text => text;
  markdown2_markdown := markdown;
  page_template_render := fun navs p => "<h1>" +:+ Page_title p +:+ "</h1>";
  collection_template_render :=
    fun navs p posts => "<ul>" +:+ String.concat "," (map PostPage.title posts) +:+ "</ul>";
  build_skeleton := fun out_dir fs => Ok fs
|}.

Definition fs : FS := {|
  files := list_to_map
    [("in/index.md", "welcome"); ("in/about.md", "about us");
     ("in/blog/a.md", "post a"); ("in/blog/b.md", "post b"); ("in/blog/c.md", "post c");
     ("in/blog/notes.txt", "notes");
     ("in/solo/only.md", "undated");
     ("in/pair/a.md", "undated"); ("in/pair/v.md", "post a");
     ("in/bad/x.md", "post bad");
     ("in/dot/.md", "post a");
     ("in/dots/.md", "post c"); ("in/dots/.md.md", "post b")];
  dirs := list_to_map
    [("in/blog", ["a.md"; "drafts"; "b.md"; "notes.txt"; "c.md"]);
     ("in/solo", ["only.md"]);
     ("in/pair", ["a.md"; "v.md"]);
     ("in/bad", ["x.md"]);
     ("in/dot", [".md"]);
     ("in/dots", [".md"; ".md.md"])]
|}.

Definition blog : CollectionPage.t := CollectionPage_init "blog" "Blog" false.

Definition pages : list Page :=
  [AFrontPage (FrontPage_init "index" "Start");
   ASinglePage (SinglePage_init "about" "About" true);
   ACollectionPage blog].

(** The post [PostPage("a", "a", blog)]. *)
Definition post_a : PostPage.t := {|
  PostPage.name := "a"; PostPage.title := "a"; PostPage.parent := "blog";
  PostPage.src := "blog/a.md";
  PostPage.target := "blog/86f7e437faa5a7fce15d1ddcb9eaeaea377667b8";
  PostPage.content := None; PostPage.output := None; PostPage.hidden := false;
  PostPage.datetime := None; PostPage.date := None; PostPage.subtitle := None;
  PostPage.uuid := "86f7e437faa5a7fce15d1ddcb9eaeaea377667b8"
|}.

(** A collection of two posts, the first without a date. *)
Definition pair : CollectionPage.t := CollectionPage_init "pair" "Pair" false.

(** The post [PostPage("a", "a", pair)]. *)
Definition pair_a : PostPage.t := {|
  PostPage.name := "a"; PostPage.title := "a"; PostPage.parent := "pair";
  PostPage.src := "pair/a.md";
  PostPage.target := "pair/86f7e437faa5a7fce15d1ddcb9eaeaea377667b8";
  PostPage.content := None; PostPage.output := None; PostPage.hidden := false;
  PostPage.datetime := None; PostPage.date := None; PostPage.subtitle := None;
  PostPage.uuid := "86f7e437faa5a7fce15d1ddcb9eaeaea377667b8"
|}.

(** The post [PostPage("v", "v", pair)]. *)
Definition pair_v : PostPage.t := {|
  PostPage.name := "v"; PostPage.title := "v"; PostPage.parent := "pair";
  PostPage.src := "pair/v.md";
  PostPage.target := "pair/7a38d8cbd20d9932ba948efaa364bb62651d5ad4";
  PostPage.content := None; PostPage.output := None; PostPage.hidden := false;
  PostPage.datetime := None; PostPage.date := None; PostPage.subtitle := None;
  PostPage.uuid := "7a38d8cbd20d9932ba948efaa364bb62651d5ad4"
|}.

(** A collection of one post, which has no date. *)
Definition solo : CollectionPage.t := CollectionPage_init "solo" "Solo" false.


(** The posts of [blog], as the discovery loop constructs them. *)
Definition found : list PostPage.t :=
  Eval vm_compute in
    match for_each (discover_step fs blog "in/blog") ["a.md"; "drafts"; "b.md"; "notes.txt"; "c.md"] []
    with Ok l => l | Raise _ => [] end.

(** The same posts, loaded. *)
Definition loaded : list PostPage.t :=
  Eval vm_compute in
    match map_result (@PostPage_load env [] fs) found with Ok l => l | Raise _ => [] end.

End Demo.

(** ** The vocabulary of the further properties *)

(** The keys the metadata loop acts on. *)
Definition recognized (k : string) : bool :=
  String.eqb k "title" || String.eqb k "subtitle" || String.eqb k "date"
  || String.eqb k "hidden".

(** The post as [PostPage.load] leaves it when the loop has assigned nothing. *)
Definition loaded_as_is `{Env} (navs : list Nav) (content : Markdown) (p : PostPage.t)
  : PostPage.t :=
  PostPage.set_output
    (Some (page_template_render navs (APostPage (PostPage.set_content (Some content) p))))
    (PostPage.set_content (Some content) p).


(** [x.strftime("%-m-%-d-%Y")]: month and day without padding. *)
Definition strftime_mdY_unpadded (x : datetime.t) : string :=
  str.of_Z (datetime.month x) +:+ "-" +:+ str.of_Z (datetime.day x) +:+ "-"
  +:+ pad4 (datetime.year x).

(** A name that is one relative path component or several: not empty, not
    starting and not ending with the separator. *)
Definition relative_name (name : string) : Prop :=
  name <> "" /\ str.startswith name "/" = false /\ str.endswith name "/" = false.

(** The stem of a file name has no separator and has a character other than
    the dot. *)
Definition regular_stem (stem : string) : Prop :=
  ~ In "/"%char (str.chars stem)
  /\ existsb (fun a => negb (Ascii.eqb a ".")) (str.chars stem) = true.

(** The exception of a comparison with [None]. *)
Definition is_TypeError (e : exn) : Prop := exists msg, e = TypeError msg.



Definition is_PostPage (p : Page) : bool :=
  match p with
  | APostPage _ => true
  | _ => false
  end.






(** The assignments of the metadata loop: each sets attributes to values that
    do not depend on the post. *)
Inductive assignment : (PostPage.t -> PostPage.t) -> Prop :=
| assign_title (v : string) : assignment (PostPage.set_title v)
| assign_subtitle (v : string) : assignment (PostPage.set_subtitle (Some v))
| assign_date (dt : datetime.t) :
    assignment (fun p => PostPage.set_date (Some (datetime.strftime dt))
                           (PostPage.set_datetime (Some dt) p))
| assign_hidden : assignment (PostPage.set_hidden true)
| assign_nothing : assignment (fun p => p).

Definition assign_all (us : list (PostPage.t -> PostPage.t)) (p : PostPage.t) : PostPage.t :=
  fold_left (fun p u => u p) us p.

(** *** A second site

    A collection of two notes: the metadata of the first has keys the loop
    does not act on, that of the second a title, a subtitle and a date. *)

Module Notes.

Definition markdown (text : string) (extras : list string) : Markdown :=
  if String.eqb text "note plain" then
    {| html := "<p>plain</p>";
       metadata := [("Title", "Shouted"); ("tags", "x"); ("Date", "01-05-2024");
                    ("Hidden", "true")] |}
  else if String.eqb text "note full" then
    {| html := "<p>full</p>";
       metadata := [("title", "My title"); ("subtitle", "Sub"); ("date", "3-7-2021")] |}
  else {| html := text; metadata := [] |}.

Definition env : Env := {|
  input_dir := "in";
  output_dir := "out";
  replace_assets_url := fun text => text;
  markdown2_markdown := markdown;
  page_template_render := fun navs p => "<h1>" +:+ Page_title p +:+ "</h1>";
  collection_template_render :=
    fun navs p posts => "<ul>" +:+ String.concat "," (map PostPage.title posts) +:+ "</ul>";
  build_skeleton := fun out_dir fs => Ok fs
|}.

Definition fs : FS := {|
  files := list_to_map [("in/notes/plain.md", "note plain"); ("in/notes/full.md", "note full")];
  dirs := list_to_map [("in/notes", ["plain.md"; "full.md"])]
|}.

Definition notes : CollectionPage.t := CollectionPage_init "notes" "Notes" false.

(** The posts [PostPage("plain", "plain", notes)] and
    [PostPage("full", "full", notes)]. *)
Definition plain : PostPage.t :=
  Eval vm_compute in
    match PostPage_init "plain" "plain" (Some (ACollectionPage notes)) with
    | Ok p => p
    | Raise _ => Demo.post_a
    end.

Definition full : PostPage.t :=
  Eval vm_compute in
    match PostPage_init "full" "full" (Some (ACollectionPage notes)) with
    | Ok p => p
    | Raise _ => Demo.post_a
    end.

End Notes.

(** Case analysis on the key, as [metadata_step] tests it. *)
Ltac step_cases k :=
  unfold metadata_step;
  destruct (String.eqb_spec k "title") as [?|?];
  [| destruct (String.eqb_spec k "subtitle") as [?|?];
     [| destruct (String.eqb_spec k "date") as [?|?];
        [| destruct (String.eqb_spec k "hidden") as [?|?]]]].

(** Arithmetic with division by a constant. *)
Ltac div_lia := Z.div_mod_to_equations; lia.

(** Case analysis on the 256 characters. *)
Ltac by_character c :=
  destruct c as [[] [] [] [] [] [] [] []]; vm_compute;
  (split; [intros E; first [discriminate E | left; reflexivity | right; reflexivity]
          | intros [E|E]; first [discriminate E | reflexivity]]).

(** * Properties *)

(** ** The library functions on concrete inputs *)

Example sha1_empty :
  hashlib.hexdigest (hashlib.sha1 (str.encode "")) = "da39a3ee5e6b4b0d3255bfef95601890afd80709".
Proof. vm_compute. reflexivity. Qed.

Example sha1_abc :
  hashlib.hexdigest (hashlib.sha1 (str.encode "abc")) = "a9993e364706816aba3e25717850c26c9cd0d89d".
Proof. vm_compute. reflexivity. Qed.

Example sha1_two_blocks :
  hashlib.hexdigest
    (hashlib.sha1 (str.encode "abcdbcdecdefdefgefghfghighijhijkijkljklmklmnlmnomnopnopq"))
  = "84983e441c3bd26ebaae4aa1f95129e5e54670f1".
Proof. vm_compute. reflexivity. Qed.

Example splitext_a_md : os_path.splitext "a.md" = ("a", ".md").
Proof. reflexivity. Qed.

Example splitext_tar_gz : os_path.splitext "x/y.d/a.tar.gz" = ("x/y.d/a.tar", ".gz").
Proof. reflexivity. Qed.

Example splitext_dotfile : os_path.splitext ".md" = (".md", "").
Proof. reflexivity. Qed.

Example join_examples :
  os_path.join "in" "blog" = "in/blog" /\ os_path.join "" "blog" = "blog"
  /\ os_path.join "in/" "blog" = "in/blog" /\ os_path.join "in" "/blog" = "/blog"
  /\ os_path.join "out" "" = "out/".
Proof. repeat split; reflexivity. Qed.

Example strptime_padded :
  datetime.strptime "01-05-2024" = Ok (datetime.Datetime 2024 1 5).
Proof. reflexivity. Qed.

Example strptime_unpadded :
  datetime.strptime "1-5-2024" = Ok (datetime.Datetime 2024 1 5).
Proof. reflexivity. Qed.

Example strptime_dec31 :
  datetime.strptime "12-31-2024" = Ok (datetime.Datetime 2024 12 31).
Proof. reflexivity. Qed.

Example strptime_feb30 : datetime.strptime "02-30-2024" = Raise (ValueError "day is out of range for month").
Proof. reflexivity. Qed.

Example strptime_iso : datetime.strptime "2024-01-05" = Raise (ValueError "time data does not match format '%m-%d-%Y'").
Proof. reflexivity. Qed.

Example strptime_trailing : datetime.strptime "01-05-20245" = Raise (ValueError "unconverted data remains").
Proof. reflexivity. Qed.

Example strftime_jan5 : datetime.strftime (datetime.Datetime 2024 1 5) = "Jan 5, 2024".
Proof. reflexivity. Qed.

(** ** Strings and paths *)

Lemma rfind_from_app (c : ascii) (s1 s2 : string) (i found : Z) :
  str.rfind_from i c (s1 +:+ s2) found
  = str.rfind_from (i + Z.of_nat (String.length s1)) c s2 (str.rfind_from i c s1 found).
Proof.
  revert i found. induction s1 as [|a s1 IH]; intros i found; simpl.
  - rewrite Z.add_0_r. reflexivity.
  - rewrite IH. f_equal. lia.
Qed.

Lemma rfind_from_absent (c : ascii) (s : string) (i found : Z) :
  ~ In c (str.chars s) -> str.rfind_from i c s found = found.
Proof.
  revert i found. induction s as [|a s IH]; intros i found Hc; cbn [str.rfind_from]; [reflexivity|].
  cbn [str.chars In] in Hc. rewrite IH by tauto.
  destruct (Ascii.eqb_spec a c); [tauto | reflexivity].
Qed.

Lemma has_non_dot_app (stem rest : string) :
  os_path.has_non_dot (String.length stem) (stem +:+ rest)
  = existsb (fun a => negb (Ascii.eqb a ".")) (str.chars stem).
Proof.
  induction stem as [|a stem IH]; simpl.
  - destruct rest; reflexivity.
  - destruct (Ascii.eqb a "."); [exact IH | reflexivity].
Qed.

Lemma str_take_app (s1 s2 : string) : str.take (String.length s1) (s1 +:+ s2) = s1.
Proof.
  induction s1 as [|a s1 IH]; simpl.
  - destruct s2; reflexivity.
  - rewrite IH. reflexivity.
Qed.

Lemma str_drop_app (s1 s2 : string) : str.drop (String.length s1) (s1 +:+ s2) = s2.
Proof.
  induction s1 as [|a s1 IH]; simpl.
  - destruct s2; reflexivity.
  - exact IH.
Qed.

Lemma splitext_md (stem : string) :
  ~ In "/"%char (str.chars stem) ->
  os_path.splitext (stem +:+ ".md")
  = if existsb (fun a => negb (Ascii.eqb a ".")) (str.chars stem)
    then (stem, ".md") else (stem +:+ ".md", "").
Proof.
  intros Hsep. unfold os_path.splitext, str.rfind.
  rewrite !rfind_from_app. rewrite (rfind_from_absent "/" stem) by exact Hsep.
  cbn [str.rfind_from Ascii.eqb Bool.eqb]. cbn.
  replace (-1 <? 0 + Z.of_nat (String.length stem)) with true
    by (symmetry; apply Z.ltb_lt; lia).
  replace (Z.to_nat (0 + Z.of_nat (String.length stem) - (-1 + 1)))
    with (String.length stem) by lia.
  replace (Z.to_nat (0 + Z.of_nat (String.length stem))) with (String.length stem) by lia.
  change (str.drop (Z.to_nat (-1 + 1)) (stem +:+ ".md")) with (stem +:+ ".md").
  rewrite has_non_dot_app, str_take_app, str_drop_app. reflexivity.
Qed.

Lemma str_append_assoc (s1 s2 s3 : string) : (s1 +:+ s2) +:+ s3 = s1 +:+ (s2 +:+ s3).
Proof.
  induction s1 as [|a s1 IH]; [reflexivity|].
  change (String a ((s1 +:+ s2) +:+ s3) = String a (s1 +:+ (s2 +:+ s3))).
  f_equal. exact IH.
Qed.

Lemma rev_acc_app (s1 s2 acc : string) :
  str.rev_acc (s1 +:+ s2) acc = str.rev_acc s2 (str.rev_acc s1 acc).
Proof. revert acc. induction s1 as [|a s1 IH]; intros acc; simpl; [reflexivity | apply IH]. Qed.

Lemma rev_acc_acc (s acc : string) : str.rev_acc s acc = str.rev s +:+ acc.
Proof.
  unfold str.rev. revert acc. induction s as [|a s IH]; intros acc; simpl; [reflexivity|].
  rewrite (IH (String a acc)), (IH (String a "")).
  rewrite str_append_assoc. reflexivity.
Qed.

Lemma str_rev_app (s1 s2 : string) : str.rev (s1 +:+ s2) = str.rev s2 +:+ str.rev s1.
Proof. unfold str.rev at 1. rewrite rev_acc_app, rev_acc_acc. reflexivity. Qed.

Lemma str_rev_nonempty (s : string) : s <> "" -> str.rev s <> "".
Proof.
  destruct s as [|a s]; [congruence|]. intros _. unfold str.rev. simpl.
  rewrite rev_acc_acc. destruct (str.rev s); discriminate.
Qed.

Lemma startswith_nil (s : string) : str.startswith s "" = true.
Proof. destruct s; reflexivity. Qed.

Lemma startswith_sep_inv (y : string) :
  str.startswith y "/" = true -> exists y', y = String "/" y'.
Proof.
  destruct y as [|b y]; cbn [str.startswith]; [discriminate|].
  intros Hb. apply andb_true_iff in Hb as [Hb _]. apply Ascii.eqb_eq in Hb. subst b.
  exists y. reflexivity.
Qed.



Lemma startswith_spec (s p : string) :
  str.startswith s p = true <-> exists t, s = p +:+ t.
Proof.
  revert s. induction p as [|a p IH]; intros s.
  - rewrite startswith_nil. split; [intros _; exists s; reflexivity | reflexivity].
  - destruct s as [|b s]; cbn [str.startswith].
    + split; [discriminate | intros [t Ht]; discriminate].
    + rewrite andb_true_iff, Ascii.eqb_eq, IH. split.
      * intros [-> [t ->]]. exists t. reflexivity.
      * intros [t Ht]. injection Ht as -> ->. split; [reflexivity | exists t; reflexivity].
Qed.

Lemma str_rev_involutive (s : string) : str.rev (str.rev s) = s.
Proof.
  induction s as [|a s IH]; [reflexivity|].
  change (String a s) with (String a "" +:+ s) at 1.
  rewrite str_rev_app, str_rev_app. rewrite IH. reflexivity.
Qed.

Lemma endswith_spec (s p : string) :
  str.endswith s p = true <-> exists t, s = t +:+ p.
Proof.
  unfold str.endswith. rewrite startswith_spec. split.
  - intros [t Ht]. exists (str.rev t).
    rewrite <- (str_rev_involutive s), Ht, str_rev_app, str_rev_involutive. reflexivity.
  - intros [t ->]. exists (str.rev t). apply str_rev_app.
Qed.

(** ** [str.lower] and the text ["true"] *)

Lemma lower_char_t (c : ascii) :
  str.lower_char c = "t"%char <-> c = "t"%char \/ c = "T"%char.
Proof. by_character c. Qed.

Lemma lower_char_r (c : ascii) :
  str.lower_char c = "r"%char <-> c = "r"%char \/ c = "R"%char.
Proof. by_character c. Qed.

Lemma lower_char_u (c : ascii) :
  str.lower_char c = "u"%char <-> c = "u"%char \/ c = "U"%char.
Proof. by_character c. Qed.

Lemma lower_char_e (c : ascii) :
  str.lower_char c = "e"%char <-> c = "e"%char \/ c = "E"%char.
Proof. by_character c. Qed.

Lemma lower_true_iff (v : string) :
  str.lower v = "true"
  <-> exists a b c d,
        v = String a (String b (String c (String d "")))
        /\ (a = "t" \/ a = "T")%char /\ (b = "r" \/ b = "R")%char
        /\ (c = "u" \/ c = "U")%char /\ (d = "e" \/ d = "E")%char.
Proof.
  split.
  - destruct v as [|a [|b [|c [|d [|e v]]]]]; cbn [str.lower]; try discriminate.
    intros [= Ha Hb Hc Hd]. exists a, b, c, d. split; [reflexivity|].
    rewrite <- lower_char_t, <- lower_char_r, <- lower_char_u, <- lower_char_e.
    repeat split; assumption.
  - intros (a & b & c & d & -> & Ha & Hb & Hc & Hd). cbn [str.lower].
    apply lower_char_t in Ha. apply lower_char_r in Hb.
    apply lower_char_u in Hc. apply lower_char_e in Hd.
    rewrite Ha, Hb, Hc, Hd. reflexivity.
Qed.

(** ** Parsing dates *)


Lemma format_regex_month (m : Z) (X : string) :
  1 <= m <= 12 ->
  datetime.format_regex (pad2 m +:+ X) = after_m (pad2 m) X.
Proof.
  intros Hm. rewrite <- (app_nil_r (after_m (pad2 m) X)).
  assert (Hcases : m = 1 \/ m = 2 \/ m = 3 \/ m = 4 \/ m = 5 \/ m = 6 \/ m = 7 \/ m = 8
                   \/ m = 9 \/ m = 10 \/ m = 11 \/ m = 12) by lia.
  repeat (destruct Hcases as [->|Hcases]); try subst m; reflexivity.
Qed.

Lemma after_m_day (mt : string) (d : Z) (X : string) :
  1 <= d <= 31 ->
  after_m mt ("-" +:+ pad2 d +:+ X) = after_d mt (pad2 d) X.
Proof.
  intros Hd. rewrite <- (app_nil_r (after_d mt (pad2 d) X)).
  rewrite <- (app_nil_r (after_d mt (pad2 d) X ++ [])).
  assert (Hcases : d = 1 \/ d = 2 \/ d = 3 \/ d = 4 \/ d = 5 \/ d = 6 \/ d = 7 \/ d = 8
                   \/ d = 9 \/ d = 10 \/ d = 11 \/ d = 12 \/ d = 13 \/ d = 14 \/ d = 15
                   \/ d = 16 \/ d = 17 \/ d = 18 \/ d = 19 \/ d = 20 \/ d = 21 \/ d = 22
                   \/ d = 23 \/ d = 24 \/ d = 25 \/ d = 26 \/ d = 27 \/ d = 28 \/ d = 29
                   \/ d = 30 \/ d = 31) by lia.
  repeat (destruct Hcases as [->|Hcases]); try subst d; reflexivity.
Qed.

Lemma digit_char_code (k : Z) : 0 <= k <= 9 -> str.code (str.digit_char k) = 48 + k.
Proof.
  intros Hk.
  assert (Hcases : k = 0 \/ k = 1 \/ k = 2 \/ k = 3 \/ k = 4 \/ k = 5 \/ k = 6 \/ k = 7
                   \/ k = 8 \/ k = 9) by lia.
  repeat (destruct Hcases as [->|Hcases]); try subst k; reflexivity.
Qed.

Lemma digit_matches (k : Z) (s : string) :
  0 <= k <= 9 ->
  datetime.digit (String (str.digit_char k) s) = [(String (str.digit_char k) "", s)].
Proof.
  intros Hk. unfold datetime.digit, datetime.range, datetime.cls.
  rewrite (digit_char_code k Hk).
  change (str.code "0") with 48. change (str.code "9") with 57.
  replace ((48 <=? 48 + k) && (48 + k <=? 57)) with true; [reflexivity|].
  symmetry. apply andb_true_iff. split; apply Z.leb_le; lia.
Qed.

Lemma re_Y_digits (a b c d : Z) :
  0 <= a <= 9 -> 0 <= b <= 9 -> 0 <= c <= 9 -> 0 <= d <= 9 ->
  let Y := String (str.digit_char a) (String (str.digit_char b)
             (String (str.digit_char c) (String (str.digit_char d) ""))) in
  datetime.re_Y Y = [(Y, "")].
Proof.
  intros Ha Hb Hc Hd Y. unfold Y, datetime.re_Y, datetime.seq.
  rewrite (digit_matches a _ Ha). cbn [flat_map].
  rewrite (digit_matches b _ Hb). cbn [flat_map].
  rewrite (digit_matches c _ Hc). cbn [flat_map].
  rewrite (digit_matches d _ Hd). reflexivity.
Qed.

Lemma int_digits (a b c d : Z) :
  0 <= a <= 9 -> 0 <= b <= 9 -> 0 <= c <= 9 -> 0 <= d <= 9 ->
  datetime.int (String (str.digit_char a) (String (str.digit_char b)
                 (String (str.digit_char c) (String (str.digit_char d) ""))))
  = 1000 * a + 100 * b + 10 * c + d.
Proof.
  intros Ha Hb Hc Hd. unfold datetime.int. cbn [datetime.int_acc].
  rewrite !digit_char_code by assumption.
  repeat match goal with
         | |- context [(48 <=? 48 + ?k) && (48 + ?k <=? 57)] =>
             replace ((48 <=? 48 + k) && (48 + k <=? 57)) with true
               by (symmetry; apply andb_true_iff; split; apply Z.leb_le; lia)
         end.
  lia.
Qed.

Lemma int_pad2 (n : Z) : 1 <= n <= 31 -> datetime.int (pad2 n) = n.
Proof.
  intros Hn. unfold pad2, datetime.int. cbn [datetime.int_acc].
  rewrite !digit_char_code by div_lia.
  repeat match goal with
         | |- context [(48 <=? 48 + ?k) && (48 + ?k <=? 57)] =>
             replace ((48 <=? 48 + k) && (48 + k <=? 57)) with true
               by (symmetry; apply andb_true_iff; split; apply Z.leb_le; div_lia)
         end.
  div_lia.
Qed.

Theorem strptime_strftime (x : datetime.t) :
  datetime.valid (datetime.year x) (datetime.month x) (datetime.day x) = true ->
  datetime.strptime (strftime_mdY x) = Ok x.
Proof.
  destruct x as [y m d]. cbn [datetime.year datetime.month datetime.day]. intros Hv.
  pose proof Hv as Hv'. unfold datetime.valid in Hv'.
  rewrite !andb_true_iff, !Z.leb_le in Hv'. destruct Hv' as [[[[[Hy1 Hy2] Hm1] Hm2] Hd1] Hd2].
  assert (Hd3 : d <= 31).
  { unfold datetime.days_in_month in Hd2.
    destruct (m =? 2); [destruct (datetime.is_leap y); lia|].
    destruct ((m =? 4) || (m =? 6) || (m =? 9) || (m =? 11)); lia. }
  unfold datetime.strptime, strftime_mdY.
  cbn [datetime.year datetime.month datetime.day].
  rewrite format_regex_month by lia. rewrite after_m_day by lia.
  unfold after_d. change ("-" +:+ pad4 y) with (String "-" (pad4 y)).
  change (datetime.lit "-" (String "-" (pad4 y))) with [("-", pad4 y)].
  cbn [flat_map]. rewrite app_nil_r. unfold pad4 at 1.
  rewrite re_Y_digits by div_lia.
  cbn [map]. cbn [String.eqb negb]. 
  rewrite !int_digits by div_lia.
  rewrite !int_pad2 by lia.
  replace (1000 * (y / 1000) + 100 * (y / 100 mod 10) + 10 * (y / 10 mod 10) + y mod 10)
    with y by div_lia.
  rewrite Hv. reflexivity.
Qed.

(** ** Exceptions and loops *)



Lemma bind_ok_inv {A B : Type} (m : result A) (k : A -> result B) (b : B) :
  bind m k = Ok b -> exists a, m = Ok a /\ k a = Ok b.
Proof. destruct m as [a|e]; simpl; [eauto | discriminate]. Qed.

Lemma for_each_app {A S : Type} (body : A -> S -> result S) (l1 l2 : list A) (st : S) :
  for_each body (l1 ++ l2) st = do st' <- for_each body l1 st; for_each body l2 st'.
Proof.
  revert st. induction l1 as [|x l1 IH]; intros st; simpl; [reflexivity|].
  destruct (body x st) as [st'|e]; simpl; [apply IH | reflexivity].
Qed.

Lemma map_result_Forall2 {A B : Type} (f : A -> result B) (l : list A) (r : list B) :
  map_result f l = Ok r <-> Forall2 (fun x y => f x = Ok y) l r.
Proof.
  revert r. induction l as [|x l IH]; intros r; simpl.
  - split.
    + intros [= <-]. constructor.
    + intros Hr. inversion Hr. reflexivity.
  - split.
    + intros Hr. apply bind_ok_inv in Hr as (y & Hy & Hr).
      apply bind_ok_inv in Hr as (ys & Hys & [= <-]).
      constructor; [exact Hy | apply IH, Hys].
    + intros Hr. inversion Hr as [|? y ? ys Hy Hys]; subst.
      rewrite Hy. simpl. apply IH in Hys. rewrite Hys. reflexivity.
Qed.


(** ** The content identifier *)

Lemma hex_digit_not_slash (n : Z) : hashlib.hex_digit n <> "/"%char.
Proof.
  unfold hashlib.hex_digit. generalize (Z.to_nat n). intros k.
  do 17 (destruct k as [|k]; [discriminate|]). discriminate.
Qed.

(** A digest never starts with the path separator, so joining it to a
    directory never discards the directory. *)
Lemma hexdigest_not_absolute (s : hashlib.state) :
  str.startswith (hashlib.hexdigest s) "/" = false.
Proof.
  unfold hashlib.hexdigest. unfold hashlib.hex32 at 1.
  cbn [fold_right str.startswith]. rewrite andb_true_r.
  apply Ascii.eqb_neq. intros E. symmetry in E. revert E. apply hex_digit_not_slash.
Qed.

Lemma PostPage_init_ok (name title : string) (c : CollectionPage.t) :
  exists p, PostPage_init name title (Some (ACollectionPage c)) = Ok p
    /\ PostPage.name p = name /\ PostPage.title p = title
    /\ PostPage.hidden p = false /\ PostPage.datetime p = None
    /\ PostPage.parent p = CollectionPage.name c
    /\ PostPage.src p = os_path.join (CollectionPage.name c) (name +:+ ".md")
    /\ PostPage.uuid p = hashlib.hexdigest (hashlib.sha1 (str.encode name))
    /\ PostPage.target p = os_path.join (CollectionPage.name c) (PostPage.uuid p).
Proof. eexists. split; [reflexivity|]. simpl. repeat split. Qed.

Lemma PostPage_init_inv (name title : string) (parent : option Page) (p : PostPage.t) :
  PostPage_init name title parent = Ok p ->
  exists c, parent = Some (ACollectionPage c)
    /\ PostPage.name p = name /\ PostPage.title p = title
    /\ PostPage.hidden p = false /\ PostPage.datetime p = None
    /\ PostPage.uuid p = hashlib.hexdigest (hashlib.sha1 (str.encode name)).
Proof.
  destruct parent as [[s|s|c|q]|]; simpl; try discriminate.
  intros [= <-]. exists c. simpl. repeat split.
Qed.

(** With a collection name that is not empty and does not end with the
    separator, the target of a post is the name, a separator and the
    digest. *)
Lemma PostPage_target_under_collection (name title : string) (c : CollectionPage.t) (p : PostPage.t) :
  PostPage_init name title (Some (ACollectionPage c)) = Ok p ->
  CollectionPage.name c <> "" ->
  str.endswith (CollectionPage.name c) "/" = false ->
  PostPage.target p = CollectionPage.name c +:+ "/" +:+ PostPage.uuid p.
Proof.
  intros [= <-] Hne Hsep. simpl. unfold os_path.join.
  rewrite hexdigest_not_absolute, Hsep.
  destruct (String.eqb_spec (CollectionPage.name c) ""); [contradiction | reflexivity].
Qed.

(** ** The metadata loop of [PostPage.load] *)

Lemma same_identity_refl (p : PostPage.t) : same_identity p p.
Proof. repeat split. Qed.

Lemma same_identity_trans (p q r : PostPage.t) :
  same_identity p q -> same_identity q r -> same_identity p r.
Proof. unfold same_identity. intuition congruence. Qed.

Lemma metadata_step_identity (k v : string) (p q : PostPage.t) :
  metadata_step (k, v) p = Ok q -> same_identity p q.
Proof.
  step_cases k.
  - intros [= <-]. repeat split.
  - intros [= <-]. repeat split.
  - destruct (datetime.strptime v) as [dt|err]; simpl; [|discriminate].
    intros [= <-]. repeat split.
  - destruct (String.eqb (str.lower v) "true"); intros [= <-]; repeat split.
  - intros [= <-]. repeat split.
Qed.

Lemma metadata_loop_identity (md : list (string * string)) (p q : PostPage.t) :
  for_each metadata_step md p = Ok q -> same_identity p q.
Proof.
  revert p. induction md as [|[k v] md IH]; intros p; simpl.
  - intros [= <-]. apply same_identity_refl.
  - intros Hq. apply bind_ok_inv in Hq as (p1 & H1 & Hq).
    eapply same_identity_trans; [eapply metadata_step_identity, H1 | apply IH, Hq].
Qed.

Lemma metadata_step_hidden (k v : string) (p q : PostPage.t) :
  metadata_step (k, v) p = Ok q ->
  PostPage.hidden q = PostPage.hidden p || hides (k, v).
Proof.
  unfold hides. simpl fst. simpl snd. step_cases k; subst; simpl.
  - intros [= <-]. simpl. rewrite orb_false_r. reflexivity.
  - intros [= <-]. simpl. rewrite orb_false_r. reflexivity.
  - destruct (datetime.strptime v) as [dt|err]; simpl; [|discriminate].
    intros [= <-]. simpl. rewrite orb_false_r. reflexivity.
  - destruct (String.eqb (str.lower v) "true"); intros [= <-]; simpl.
    + rewrite orb_true_r. reflexivity.
    + rewrite orb_false_r. reflexivity.
  - destruct (String.eqb_spec k "hidden"); [contradiction|].
    intros [= <-]. simpl. rewrite orb_false_r. reflexivity.
Qed.

Lemma metadata_loop_hidden (md : list (string * string)) (p q : PostPage.t) :
  for_each metadata_step md p = Ok q ->
  PostPage.hidden q = PostPage.hidden p || existsb hides md.
Proof.
  revert p. induction md as [|[k v] md IH]; intros p; simpl.
  - intros [= <-]. rewrite orb_false_r. reflexivity.
  - intros Hq. apply bind_ok_inv in Hq as (p1 & H1 & Hq).
    rewrite (IH _ Hq), (metadata_step_hidden _ _ _ _ H1), orb_assoc. reflexivity.
Qed.

Lemma existsb_hides (md : list (string * string)) :
  existsb hides md = true
  <-> exists v, In ("hidden", v) md /\ str.lower v = "true".
Proof.
  rewrite existsb_exists. split.
  - intros ([k v] & Hin & Hh). unfold hides in Hh. simpl in Hh.
    apply andb_true_iff in Hh as [Hk Hv].
    apply String.eqb_eq in Hk, Hv. subst k. exists v. split; assumption.
  - intros (v & Hin & Hv). exists ("hidden", v). split; [exact Hin|].
    unfold hides. simpl. rewrite Hv. reflexivity.
Qed.

Lemma metadata_step_title (k v : string) (p q : PostPage.t) :
  k <> "title" -> metadata_step (k, v) p = Ok q -> PostPage.title q = PostPage.title p.
Proof.
  intros Hk. step_cases k; subst; try contradiction.
  - intros [= <-]. reflexivity.
  - destruct (datetime.strptime v) as [dt|err]; simpl; [|discriminate].
    intros [= <-]. reflexivity.
  - destruct (String.eqb (str.lower v) "true"); intros [= <-]; reflexivity.
  - intros [= <-]. reflexivity.
Qed.

Lemma metadata_loop_title (md : list (string * string)) (p q : PostPage.t) :
  (forall v, ~ In ("title", v) md) ->
  for_each metadata_step md p = Ok q -> PostPage.title q = PostPage.title p.
Proof.
  revert p. induction md as [|[k v] md IH]; intros p Hno; simpl.
  - intros [= <-]. reflexivity.
  - intros Hq. apply bind_ok_inv in Hq as (p1 & H1 & Hq).
    rewrite (IH p1); [| intros w Hw; apply (Hno w); right; exact Hw | exact Hq].
    eapply metadata_step_title; [| exact H1].
    intros ->. apply (Hno v). left. reflexivity.
Qed.






(** *** [PostPage.load] as a whole *)

Lemma PostPage_load_inv `{Env} (navs : list Nav) (fs : FS) (p q : PostPage.t) :
  PostPage_load navs fs p = Ok q ->
  exists text q0,
    read_file fs (os_path.join input_dir (PostPage.src p)) = Ok text
    /\ for_each metadata_step (metadata (post_content text)) p = Ok q0
    /\ q = PostPage.set_output
             (Some (page_template_render navs
                      (APostPage (PostPage.set_content (Some (post_content text)) q0))))
             (PostPage.set_content (Some (post_content text)) q0).
Proof.
  unfold PostPage_load. intros Hq.
  apply bind_ok_inv in Hq as (text & Ht & Hq).
  apply bind_ok_inv in Hq as (q0 & H0 & [= <-]).
  exists text, q0. repeat split; assumption.
Qed.

Lemma PostPage_load_eq `{Env} (navs : list Nav) (fs : FS) (p : PostPage.t) (text : string) :
  read_file fs (os_path.join input_dir (PostPage.src p)) = Ok text ->
  PostPage_load navs fs p
  = do q0 <- for_each metadata_step (metadata (post_content text)) p;
    Ok (PostPage.set_output
          (Some (page_template_render navs
                   (APostPage (PostPage.set_content (Some (post_content text)) q0))))
          (PostPage.set_content (Some (post_content text)) q0)).
Proof. intros Ht. unfold PostPage_load. rewrite Ht. reflexivity. Qed.

(** ** The order of timestamps *)

Lemma datetime_lt_spec (a b : datetime.t) :
  datetime.lt a b = true
  <-> (datetime.year a < datetime.year b
       \/ (datetime.year a = datetime.year b
           /\ (datetime.month a < datetime.month b
               \/ (datetime.month a = datetime.month b
                   /\ datetime.day a < datetime.day b)))).
Proof.
  unfold datetime.lt.
  rewrite !orb_true_iff, !andb_true_iff, !orb_true_iff, !andb_true_iff,
    !Z.ltb_lt, !Z.eqb_eq.
  reflexivity.
Qed.

Lemma datetime_lt_false (a b : datetime.t) :
  datetime.lt a b = false
  <-> ~ (datetime.year a < datetime.year b
         \/ (datetime.year a = datetime.year b
             /\ (datetime.month a < datetime.month b
                 \/ (datetime.month a = datetime.month b
                     /\ datetime.day a < datetime.day b)))).
Proof. rewrite <- datetime_lt_spec. destruct (datetime.lt a b); intuition congruence. Qed.

Lemma datetime_lt_irrefl (a : datetime.t) : datetime.lt a a = false.
Proof. apply datetime_lt_false. lia. Qed.

Lemma datetime_lt_asym (a b : datetime.t) :
  datetime.lt a b = true -> datetime.lt b a = false.
Proof. rewrite datetime_lt_spec, datetime_lt_false. lia. Qed.

Lemma datetime_lt_trans (a b c : datetime.t) :
  datetime.lt a b = true -> datetime.lt b c = true -> datetime.lt a c = true.
Proof. rewrite !datetime_lt_spec. lia. Qed.

Lemma datetime_not_lt_trans (a b c : datetime.t) :
  datetime.lt b a = false -> datetime.lt c b = false -> datetime.lt c a = false.
Proof. rewrite !datetime_lt_false. lia. Qed.

Lemma datetime_total (a b : datetime.t) :
  datetime.lt a b = false -> datetime.lt b a = true \/ a = b.
Proof.
  rewrite datetime_lt_false, datetime_lt_spec. intros Hab.
  destruct a as [ya ma da], b as [yb mb db]. simpl in *.
  destruct (Z.eq_dec ya yb) as [->|]; [| left; lia].
  destruct (Z.eq_dec ma mb) as [->|]; [| left; lia].
  destruct (Z.eq_dec da db) as [->|]; [right; reflexivity | left; lia].
Qed.

Lemma datetime_eqb_eq (a b : datetime.t) : datetime_eqb a b = true <-> a = b.
Proof.
  unfold datetime_eqb. rewrite !andb_true_iff, !Z.eqb_eq.
  destruct a as [ya ma da], b as [yb mb db]. simpl. split.
  - intros [[-> ->] ->]. reflexivity.
  - intros [= -> -> ->]. repeat split.
Qed.

(** ** Sorted lists *)

Lemma StronglySorted_app {A : Type} (R : A -> A -> Prop) (l1 l2 : list A) :
  StronglySorted R l1 -> StronglySorted R l2 ->
  (forall x y, In x l1 -> In y l2 -> R x y) ->
  StronglySorted R (l1 ++ l2).
Proof.
  intros H1 H2 H12. induction H1 as [|x l1 Hs IH Hx]; simpl; [exact H2|].
  constructor.
  - apply IH. intros a b Ha Hb. apply H12; [right; exact Ha | exact Hb].
  - apply List.Forall_app. split; [exact Hx|].
    apply List.Forall_forall. intros y Hy. apply H12; [left; reflexivity | exact Hy].
Qed.

Lemma StronglySorted_rev {A : Type} (R : A -> A -> Prop) (l : list A) :
  StronglySorted R l -> StronglySorted (fun x y => R y x) (List.rev l).
Proof.
  induction 1 as [|x l Hs IH Hx]; simpl; [constructor|].
  apply StronglySorted_app.
  - exact IH.
  - repeat constructor.
  - intros a b Ha [<-|[]]. apply List.in_rev in Ha.
    rewrite List.Forall_forall in Hx. apply Hx, Ha.
Qed.

Lemma StronglySorted_weaken {A : Type} (R S : A -> A -> Prop) (l : list A) :
  (forall x y, R x y -> S x y) -> StronglySorted R l -> StronglySorted S l.
Proof.
  intros HRS. induction 1 as [|x l Hs IH Hx]; constructor; [exact IH|].
  eapply List.Forall_impl; [| exact Hx]. intros y. apply HRS.
Qed.

(** ** Sorting by timestamp *)

Section SortByDatetime.
Context {A : Type} (key : A -> option datetime.t).

Lemma insert_permutation (x : A) (l r : list A) :
  list_sort.insert key key_lt x l = Ok r -> Permutation r (x :: l).
Proof.
  revert r. induction l as [|y l IH]; intros r; cbn [list_sort.insert].
  - intros [= <-]. reflexivity.
  - intros Hr. apply bind_ok_inv in Hr as (b & _ & Hr). destruct b.
    + apply bind_ok_inv in Hr as (r' & Hr' & [= <-]).
      rewrite (IH _ Hr'). apply perm_swap.
    + injection Hr as <-. reflexivity.
Qed.

Lemma sort_asc_permutation (l r : list A) :
  list_sort.sort_asc key key_lt l = Ok r -> Permutation r l.
Proof.
  revert r. induction l as [|x l IH]; intros r; cbn [list_sort.sort_asc].
  - intros [= <-]. reflexivity.
  - intros Hr. apply bind_ok_inv in Hr as (r' & Hr' & Hr).
    rewrite (insert_permutation _ _ _ Hr). constructor. apply IH, Hr'.
Qed.

Lemma insert_dated (x : A) (l : list A) :
  (dated key) x -> Forall (dated key) l -> StronglySorted (ascending key) l ->
  exists r, list_sort.insert key key_lt x l = Ok r
    /\ StronglySorted (ascending key) r
    /\ forall t, List.filter ((at_time key) t) r = List.filter ((at_time key) t) (x :: l).
Proof.
  intros [a Ha]. induction l as [|y l IH]; intros Hl Hs; cbn [list_sort.insert].
  - exists [x]. repeat split. repeat constructor.
  - inversion Hl as [|? ? [b Hb] Hl']; subst.
    inversion Hs as [|? ? Hs' Hy]; subst.
    rewrite Hb, Ha. cbn [key_lt bind].
    destruct (datetime.lt b a) eqn:Hlt.
    + destruct (IH Hl' Hs') as (r & Hr & Hsr & Hf).
      rewrite Hr. cbn [bind]. exists (y :: r). split; [reflexivity|]. split.
      * constructor; [exact Hsr|].
        apply List.Forall_forall. intros z Hz.
        apply (Permutation_in _ (insert_permutation _ _ _ Hr)) in Hz.
        destruct Hz as [<-|Hz].
        -- exists b, a. repeat split; try assumption.
           apply datetime_lt_asym, Hlt.
        -- rewrite List.Forall_forall in Hy. apply Hy, Hz.
      * intros t. cbn [List.filter]. rewrite Hf. cbn [List.filter].
        assert (Ex : (at_time key) t x = datetime_eqb a t) by (unfold at_time; rewrite Ha; reflexivity).
        assert (Ey : (at_time key) t y = datetime_eqb b t) by (unfold at_time; rewrite Hb; reflexivity).
        rewrite Ex, Ey.
        destruct (datetime_eqb a t) eqn:Eat; [|reflexivity].
        destruct (datetime_eqb b t) eqn:Ebt; [|reflexivity].
        apply datetime_eqb_eq in Eat, Ebt. subst a b.
        rewrite datetime_lt_irrefl in Hlt. discriminate.
    + exists (x :: y :: l). split; [reflexivity|]. split; [|reflexivity].
      constructor; [exact Hs|]. constructor.
      * exists a, b. repeat split; assumption.
      * eapply List.Forall_impl; [| exact Hy].
        intros z (b' & c & Hb' & Hc & Hcb). rewrite Hb in Hb'. injection Hb' as <-.
        exists a, c. repeat split; try assumption.
        eapply datetime_not_lt_trans; eassumption.
Qed.

Lemma sort_asc_dated (l : list A) :
  Forall (dated key) l ->
  exists r, list_sort.sort_asc key key_lt l = Ok r
    /\ StronglySorted (ascending key) r
    /\ forall t, List.filter ((at_time key) t) r = List.filter ((at_time key) t) l.
Proof.
  induction l as [|x l IH]; intros Hl; cbn [list_sort.sort_asc].
  - exists []. repeat split. constructor.
  - inversion Hl as [|? ? Hx Hl']; subst.
    destruct (IH Hl') as (r' & Hr' & Hs' & Hf'). rewrite Hr'. cbn [bind].
    destruct (insert_dated x r' Hx) as (r & Hr & Hs & Hf).
    + apply List.Forall_forall. intros z Hz.
      apply (Permutation_in _ (sort_asc_permutation _ _ Hr')) in Hz.
      rewrite List.Forall_forall in Hl'. apply Hl', Hz.
    + exact Hs'.
    + exists r. split; [exact Hr|]. split; [exact Hs|].
      intros t. rewrite Hf. cbn [List.filter]. rewrite Hf'. reflexivity.
Qed.

Lemma ascending_flip (x y : A) : (ascending key) y x -> (descending key) x y.
Proof.
  intros (b & a & Hb & Ha & Hlt). exists a, b. repeat split; try assumption.
  destruct (datetime_total _ _ Hlt) as [Hgt| ->]; [left; exact Hgt | right; reflexivity].
Qed.

(** [l.sort(key=key, reverse=True)] on timestamps that are all set: the
    sort returns, its result is a rearrangement of [l] in (descending key) order
    of timestamp, and the elements of each timestamp are in their order
    in [l]. *)
Lemma sort_reverse_dated (l : list A) :
  Forall (dated key) l ->
  exists r, list_sort.sort key key_lt true l = Ok r
    /\ Permutation r l
    /\ StronglySorted (descending key) r
    /\ forall t, List.filter ((at_time key) t) r = List.filter ((at_time key) t) l.
Proof.
  intros Hl. unfold list_sort.sort.
  destruct (sort_asc_dated (List.rev l)) as (r & Hr & Hs & Hf).
  { apply List.Forall_forall. intros z Hz. apply List.in_rev in Hz.
    rewrite List.Forall_forall in Hl. apply Hl, Hz. }
  rewrite Hr. cbn [bind]. exists (List.rev r). split; [reflexivity|]. split; [|split].
  - rewrite <- (Permutation_rev r), (sort_asc_permutation _ _ Hr).
    symmetry. apply Permutation_rev.
  - eapply StronglySorted_weaken; [| apply StronglySorted_rev, Hs].
    intros x y. apply ascending_flip.
  - intros t. rewrite List.filter_rev, Hf, List.filter_rev, List.rev_involutive.
    reflexivity.
Qed.

(** A sort of two or more elements compares each of them, and a comparison
    with an unset timestamp raises. *)
Lemma insert_ok_dated (x : A) (l r : list A) :
  list_sort.insert key key_lt x l = Ok r -> l <> [] -> Forall (dated key) l -> (dated key) x.
Proof.
  destruct l as [|y l]; [congruence|]. cbn [list_sort.insert].
  intros Hr _ _. apply bind_ok_inv in Hr as (b & Hb & _).
  unfold key_lt in Hb. destruct (key y); [|discriminate].
  destruct (key x) as [a|] eqn:Ha; [|discriminate]. exists a. exact Ha.
Qed.

Lemma insert_single_dated (x y : A) (r : list A) :
  list_sort.insert key key_lt x [y] = Ok r -> (dated key) x /\ (dated key) y.
Proof.
  cbn [list_sort.insert]. intros Hr. apply bind_ok_inv in Hr as (b & Hb & _).
  unfold key_lt in Hb. destruct (key y) as [c|] eqn:Hc; [|discriminate].
  destruct (key x) as [a|] eqn:Ha; [|discriminate].
  split; [exists a | exists c]; assumption.
Qed.

Lemma sort_asc_ok_dated (l r : list A) :
  list_sort.sort_asc key key_lt l = Ok r -> (2 <= length l)%nat -> Forall (dated key) l.
Proof.
  revert r. induction l as [|x l IH]; intros r Hr Hlen; [constructor|].
  cbn [list_sort.sort_asc] in Hr. apply bind_ok_inv in Hr as (r' & Hr' & Hr).
  destruct l as [|y [|z l]].
  - simpl in Hlen. lia.
  - cbn in Hr'. injection Hr' as <-.
    apply insert_single_dated in Hr as [Hx Hy]. repeat constructor; assumption.
  - assert (Hl : Forall (dated key) (y :: z :: l)) by (apply (IH r' Hr'); simpl; lia).
    constructor; [|exact Hl].
    assert (Hp := sort_asc_permutation _ _ Hr').
    apply (insert_ok_dated x r' r Hr).
    + intros ->. apply Permutation_nil in Hp. discriminate.
    + apply List.Forall_forall. intros w Hw.
      apply (Permutation_in _ Hp) in Hw.
      rewrite List.Forall_forall in Hl. apply Hl, Hw.
Qed.


(** With fewer than two elements nothing is compared. *)
Lemma sort_reverse_short (l : list A) :
  (length l <= 1)%nat -> list_sort.sort key key_lt true l = Ok l.
Proof.
  destruct l as [|x [|y l]]; simpl; [reflexivity | reflexivity | lia].
Qed.
End SortByDatetime.

(** ** The collection aggregator *)

(** The loop never raises; it appends, in the order of the listing, one post
    for each entry that passes the test and nothing for the others. *)
Lemma discover_loop (fs : FS) (c : CollectionPage.t) (src_path : string)
    (names : list string) (posts0 : list PostPage.t) :
  exists found,
    for_each (discover_step fs c src_path) names posts0 = Ok (posts0 ++ found)
    /\ Forall2 (constructed c) (List.filter (is_post_file fs src_path) names) found.
Proof.
  revert posts0. induction names as [|f names IH]; intros posts0; cbn [for_each List.filter].
  - exists []. rewrite app_nil_r. split; [reflexivity | constructor].
  - unfold discover_step at 1. fold (is_post_file fs src_path f).
    destruct (is_post_file fs src_path f).
    + fold (post_identifier f).
      destruct (PostPage_init_ok (post_identifier f) (post_identifier f) c) as (p & Hp & _).
      rewrite Hp. cbn [bind].
      destruct (IH (posts0 ++ [p])) as (found & Hfound & Hall).
      exists (p :: found). rewrite Hfound, <- app_assoc. split; [reflexivity|].
      constructor; [exact Hp | exact Hall].
    + cbn [bind]. apply IH.
Qed.

Lemma discover_loop_inv (fs : FS) (c : CollectionPage.t) (src_path : string)
    (names : list string) (found : list PostPage.t) :
  for_each (discover_step fs c src_path) names [] = Ok found ->
  Forall2 (constructed c) (List.filter (is_post_file fs src_path) names) found.
Proof.
  intros Hf. destruct (discover_loop fs c src_path names []) as (found' & Hf' & Hall).
  rewrite Hf in Hf'. injection Hf' as ->. exact Hall.
Qed.

Lemma constructed_undated (c : CollectionPage.t) (filename : string) (p : PostPage.t) :
  constructed c filename p ->
  PostPage.datetime p = None /\ PostPage.hidden p = false
  /\ PostPage.name p = post_identifier filename
  /\ PostPage.title p = post_identifier filename.
Proof.
  intros Hp. apply PostPage_init_inv in Hp as (c0 & _ & Hn & Ht & Hh & Hd & _).
  repeat split; assumption.
Qed.


(** *** The entries that become posts, and their identifiers *)

Lemma startswith_sep_absent (f : string) :
  ~ In "/"%char (str.chars f) -> str.startswith f "/" = false.
Proof.
  intros Hf. destruct (str.startswith f "/") eqn:Hs; [|reflexivity].
  apply startswith_sep_inv in Hs as [f' ->]. exfalso. apply Hf. left. reflexivity.
Qed.


(** The identifier of the entry [stem.md] is [stem] when [stem] has a
    character other than the dot. *)
Lemma post_identifier_md (stem : string) :
  ~ In "/"%char (str.chars stem) ->
  existsb (fun a => negb (Ascii.eqb a ".")) (str.chars stem) = true ->
  post_identifier (stem +:+ ".md") = stem.
Proof.
  intros Hsep Hdot. unfold post_identifier. rewrite (splitext_md stem Hsep), Hdot.
  reflexivity.
Qed.

(** When [stem] is empty or made of dots only, the identifier of the entry
    [stem.md] is the whole name, with the [.md]. *)
Lemma post_identifier_dots (stem : string) :
  ~ In "/"%char (str.chars stem) ->
  existsb (fun a => negb (Ascii.eqb a ".")) (str.chars stem) = false ->
  post_identifier (stem +:+ ".md") = stem +:+ ".md".
Proof.
  intros Hsep Hdot. unfold post_identifier. rewrite (splitext_md stem Hsep), Hdot.
  reflexivity.
Qed.



(** A post that is loaded keeps the title it was constructed with, the
    identifier, when its metadata has no key [title]. *)
Lemma loaded_post_title `{Env} (navs : list Nav) (fs : FS) (c : CollectionPage.t)
    (filename : string) (p q : PostPage.t) (content : Markdown) :
  constructed c filename p ->
  PostPage_load navs fs p = Ok q ->
  PostPage.content q = Some content ->
  (forall v, ~ In ("title", v) (metadata content)) ->
  PostPage.title q = post_identifier filename /\ PostPage.name q = post_identifier filename.
Proof.
  intros Hp Hq Hc Hno.
  apply constructed_undated in Hp as (_ & _ & Hn & Ht).
  apply PostPage_load_inv in Hq as (text & q0 & _ & Hm & ->).
  cbn in Hc. injection Hc as <-. cbn.
  rewrite (metadata_loop_title _ _ _ Hno Hm).
  apply metadata_loop_identity in Hm as (Hname & _).
  split; congruence.
Qed.

(** *** [CollectionPage.load] as a whole *)

Lemma CollectionPage_load_eq `{Env} (navs : list Nav) (fs : FS) (c : CollectionPage.t)
    (names : list string) (found loaded : list PostPage.t) :
  listdir fs (collection_src_path c) = Ok names ->
  for_each (discover_step fs c (collection_src_path c)) names (CollectionPage.posts c)
    = Ok found ->
  map_result (PostPage_load navs fs) found = Ok loaded ->
  CollectionPage_load navs fs c = do posts <- sort_posts loaded; Ok (rendered navs c posts).
Proof.
  intros Hn Hf Hl. unfold CollectionPage_load. fold (collection_src_path c).
  rewrite Hn. cbn [bind]. rewrite Hf. cbn [bind]. rewrite Hl. reflexivity.
Qed.

Lemma CollectionPage_load_inv `{Env} (navs : list Nav) (fs : FS) (c c' : CollectionPage.t) :
  CollectionPage_load navs fs c = Ok c' ->
  exists names found loaded sorted,
    listdir fs (collection_src_path c) = Ok names
    /\ for_each (discover_step fs c (collection_src_path c)) names (CollectionPage.posts c)
       = Ok found
    /\ map_result (PostPage_load navs fs) found = Ok loaded
    /\ sort_posts loaded = Ok sorted
    /\ c' = rendered navs c sorted.
Proof.
  unfold CollectionPage_load. fold (collection_src_path c). intros Hc.
  apply bind_ok_inv in Hc as (names & Hn & Hc).
  apply bind_ok_inv in Hc as (found & Hf & Hc).
  apply bind_ok_inv in Hc as (loaded & Hl & Hc).
  apply bind_ok_inv in Hc as (sorted & Hs & [= <-]).
  exists names, found, loaded, sorted. repeat split; assumption.
Qed.




(** ** The write phase *)










(** *** Every loaded page has its output *)

Lemma sort_posts_permutation (l r : list PostPage.t) :
  sort_posts l = Ok r -> Permutation r l.
Proof.
  unfold sort_posts, list_sort.sort. intros Hr.
  apply bind_ok_inv in Hr as (r' & Hr' & [= <-]).
  rewrite <- (Permutation_rev r'), (sort_asc_permutation _ _ _ Hr').
  symmetry. apply Permutation_rev.
Qed.



(** * The claims *)

(** C9. Whatever name and title it is constructed with, a [FrontPage] ends
    construction with the name ["home"], the title ["Home"] and the empty
    target; its source was derived before the name was replaced, and is the
    name supplied followed by [".md"]. *)
Theorem FrontPage_init_overrides (name title : string) :
  SinglePage.name (FrontPage_init name title) = "home"
  /\ SinglePage.title (FrontPage_init name title) = "Home"
  /\ SinglePage.target (FrontPage_init name title) = ""
  /\ SinglePage.src (FrontPage_init name title) = name +:+ ".md".
Proof. repeat split. Qed.

(** C2. The target of a [SinglePage] is its name, the target of a
    [FrontPage] is the empty path, the target of a [CollectionPage] is its
    name, and the target of a [PostPage] is the name of its parent joined
    with the content identifier, the SHA-1 digest of the name of the post. *)
Theorem target_path_rule (name title : string) (hidden : bool) (parent : CollectionPage.t) :
  SinglePage.target (SinglePage_init name title hidden) = name
  /\ SinglePage.target (FrontPage_init name title) = ""
  /\ CollectionPage.target (CollectionPage_init name title hidden) = name
  /\ exists p, PostPage_init name title (Some (ACollectionPage parent)) = Ok p
       /\ PostPage.uuid p = hashlib.hexdigest (hashlib.sha1 (str.encode name))
       /\ PostPage.target p = os_path.join (CollectionPage.name parent) (PostPage.uuid p).
Proof.
  split; [reflexivity|]. split; [reflexivity|]. split; [reflexivity|].
  destruct (PostPage_init_ok name title parent) as (p & Hp & _ & _ & _ & _ & _ & _ & Hu & Ht).
  exists p. repeat split; assumption.
Qed.

(** C7. The content identifier of a post is a function of its name alone:
    two posts constructed with the same name, whatever their titles and
    parents, have the same identifier, the SHA-1 digest of the name; and
    loading such a post, with whatever collaborators, files and metadata,
    leaves the identifier unchanged. *)
Theorem content_id_function_of_name (name title1 title2 : string)
    (parent1 parent2 : option Page) (p1 p2 : PostPage.t) :
  PostPage_init name title1 parent1 = Ok p1 ->
  PostPage_init name title2 parent2 = Ok p2 ->
  PostPage.uuid p1 = hashlib.hexdigest (hashlib.sha1 (str.encode name))
  /\ PostPage.uuid p2 = PostPage.uuid p1
  /\ forall (E : Env) (navs : list Nav) (fs : FS) (q : PostPage.t),
       @PostPage_load E navs fs p2 = Ok q -> PostPage.uuid q = PostPage.uuid p1.
Proof.
  intros H1 H2.
  apply PostPage_init_inv in H1 as (c1 & _ & _ & _ & _ & _ & U1).
  apply PostPage_init_inv in H2 as (c2 & _ & _ & _ & _ & _ & U2).
  split; [exact U1|]. split; [congruence|].
  intros E navs fs q Hq.
  apply PostPage_load_inv in Hq as (text & q0 & _ & Hm & ->).
  apply metadata_loop_identity in Hm as (_ & _ & _ & _ & V).
  simpl. congruence.
Qed.

Lemma content_id_function_of_name_witness :
  PostPage_init "a" "a" (Some (ACollectionPage Demo.blog)) = Ok Demo.post_a
  /\ PostPage_init "a" "a" (Some (ACollectionPage Demo.pair)) = Ok Demo.pair_a
  /\ PostPage.uuid Demo.post_a = "86f7e437faa5a7fce15d1ddcb9eaeaea377667b8"
  /\ PostPage.uuid Demo.pair_a = PostPage.uuid Demo.post_a
  /\ exists q, @PostPage_load Demo.env [] Demo.fs Demo.pair_a = Ok q
       /\ PostPage.uuid q = PostPage.uuid Demo.post_a.
Proof.
  assert (H1 : PostPage_init "a" "a" (Some (ACollectionPage Demo.blog)) = Ok Demo.post_a)
    by (vm_compute; reflexivity).
  assert (H2 : PostPage_init "a" "a" (Some (ACollectionPage Demo.pair)) = Ok Demo.pair_a)
    by (vm_compute; reflexivity).
  destruct (content_id_function_of_name "a" "a" "a" _ _ _ _ H1 H2) as (_ & Heq & Hload).
  split; [exact H1|]. split; [exact H2|]. split; [reflexivity|]. split; [exact Heq|].
  destruct (@PostPage_load Demo.env [] Demo.fs Demo.pair_a) as [q|e] eqn:Hq.
  - exists q. split; [reflexivity|]. apply (Hload Demo.env [] Demo.fs q Hq).
  - vm_compute in Hq. discriminate.
Defined.

(** C6. After a post is loaded it is marked hidden if and only if its
    metadata has the key [hidden] with a value whose lower-case form is
    ["true"]; with any other value, and without the key, it stays visible,
    as it was constructed. *)
Theorem post_hidden_iff_true `{Env} (navs : list Nav) (fs : FS) (name title : string)
    (parent : option Page) (p q : PostPage.t) :
  PostPage_init name title parent = Ok p ->
  PostPage_load navs fs p = Ok q ->
  exists content, PostPage.content q = Some content
    /\ (PostPage.hidden q = true
        <-> exists v, In ("hidden", v) (metadata content) /\ str.lower v = "true").
Proof.
  intros Hp Hq.
  apply PostPage_init_inv in Hp as (c & _ & _ & _ & Hh & _).
  apply PostPage_load_inv in Hq as (text & q0 & _ & Hm & ->).
  exists (post_content text). split; [reflexivity|].
  apply metadata_loop_hidden in Hm. cbn. rewrite Hm, Hh. cbn [orb].
  apply existsb_hides.
Qed.

Lemma post_hidden_iff_true_witness :
  exists pb qb pc qc,
    PostPage_init "b" "b" (Some (ACollectionPage Demo.blog)) = Ok pb
    /\ @PostPage_load Demo.env [] Demo.fs pb = Ok qb
    /\ PostPage_init "c" "c" (Some (ACollectionPage Demo.blog)) = Ok pc
    /\ @PostPage_load Demo.env [] Demo.fs pc = Ok qc
    /\ (exists content, PostPage.content qb = Some content
         /\ In ("hidden", "True") (metadata content) /\ PostPage.hidden qb = true)
    /\ (exists content, PostPage.content qc = Some content
         /\ In ("hidden", "yes") (metadata content) /\ PostPage.hidden qc = false).
Proof.
  do 4 eexists.
  split; [reflexivity|]. split; [vm_compute; reflexivity|].
  split; [reflexivity|]. split; [vm_compute; reflexivity|].
  split.
  - destruct (post_hidden_iff_true (H := Demo.env) [] Demo.fs "b" "b"
                (Some (ACollectionPage Demo.blog)) _ _ eq_refl eq_refl)
      as (content & Hc & Hiff).
    exists content. split; [exact Hc|].
    injection Hc as <-. split; [right; left; reflexivity|].
    apply Hiff. exists "True". split; [right; left; reflexivity | reflexivity].
  - eexists. split; [reflexivity|]. split; [left; reflexivity | reflexivity].
Defined.



(** C1. The posts of a collection are discovered and loaded in the order
    of the directory listing. When every one of them has a parsed timestamp
    after its load, loading the collection returns, and the sequence of its
    posts is the loaded posts rearranged so that each post is followed only
    by posts with a strictly earlier or an equal timestamp, the posts of
    equal timestamp standing in the order in which they were discovered. *)
Theorem collection_load_sorted_stable `{Env} (navs : list Nav) (fs : FS)
    (name title : string) (hidden : bool) (names : list string)
    (found loaded : list PostPage.t) :
  let c := CollectionPage_init name title hidden in
  listdir fs (collection_src_path c) = Ok names ->
  for_each (discover_step fs c (collection_src_path c)) names [] = Ok found ->
  map_result (PostPage_load navs fs) found = Ok loaded ->
  Forall (dated PostPage.datetime) loaded ->
  Forall2 (constructed c) (List.filter (is_post_file fs (collection_src_path c)) names) found
  /\ Forall2 (fun p q => PostPage_load navs fs p = Ok q) found loaded
  /\ exists c', CollectionPage_load navs fs c = Ok c'
       /\ Permutation (CollectionPage.posts c') loaded
       /\ StronglySorted (descending PostPage.datetime) (CollectionPage.posts c')
       /\ forall t, List.filter (at_time PostPage.datetime t) (CollectionPage.posts c')
                    = List.filter (at_time PostPage.datetime t) loaded.
Proof.
  intros c Hn Hf Hl Hd.
  split; [apply discover_loop_inv, Hf|]. split; [apply map_result_Forall2, Hl|].
  rewrite (CollectionPage_load_eq navs fs c names found loaded Hn Hf Hl).
  destruct (sort_reverse_dated PostPage.datetime loaded Hd) as (r & Hr & Hp & Hs & Hst).
  unfold sort_posts. rewrite Hr. cbn [bind].
  exists (rendered navs c r). split; [reflexivity|]. repeat split; assumption.
Qed.

Lemma collection_load_sorted_stable_witness :
  listdir Demo.fs (@collection_src_path Demo.env Demo.blog)
    = Ok ["a.md"; "drafts"; "b.md"; "notes.txt"; "c.md"]
  /\ map PostPage.name Demo.found = ["a"; "b"; "c"]
  /\ map PostPage.date Demo.loaded
     = [Some "Jan 5, 2024"; Some "Dec 31, 2024"; Some "Jan 5, 2024"]
  /\ exists c', @CollectionPage_load Demo.env [] Demo.fs Demo.blog = Ok c'
       /\ map PostPage.name (CollectionPage.posts c') = ["b"; "a"; "c"]
       /\ StronglySorted (descending PostPage.datetime) (CollectionPage.posts c').
Proof.
  split; [vm_compute; reflexivity|]. split; [reflexivity|]. split; [reflexivity|].
  destruct (collection_load_sorted_stable (H := Demo.env) [] Demo.fs "blog" "Blog" false
              ["a.md"; "drafts"; "b.md"; "notes.txt"; "c.md"] Demo.found Demo.loaded)
    as (_ & _ & c' & Hc & _ & Hs & _).
  - vm_compute. reflexivity.
  - vm_compute. reflexivity.
  - vm_compute. reflexivity.
  - repeat constructor; eexists; reflexivity.
  - exists c'. split; [exact Hc|]. split; [|exact Hs].
    vm_compute in Hc. injection Hc as <-. reflexivity.
Defined.

(** *** C3 *)



(** A collection of one post loads as soon as the post does, with or
    without a timestamp: the sort of one element compares nothing. *)
Lemma single_post_collection_loads `{Env} (navs : list Nav) (fs : FS)
    (c : CollectionPage.t) (names : list string) (p q : PostPage.t) :
  listdir fs (collection_src_path c) = Ok names ->
  for_each (discover_step fs c (collection_src_path c)) names (CollectionPage.posts c)
    = Ok [p] ->
  PostPage_load navs fs p = Ok q ->
  CollectionPage_load navs fs c = Ok (rendered navs c [q]).
Proof.
  intros Hn Hf Hq.
  rewrite (CollectionPage_load_eq navs fs c names [p] [q] Hn Hf).
  - reflexivity.
  - cbn [map_result]. rewrite Hq. reflexivity.
Qed.

(** A value of [date] in another format makes the load of the post, and of
    its collection, raise the error of the parser. *)
Example bad_date_collection_fails :
  @CollectionPage_load Demo.env [] Demo.fs (CollectionPage_init "bad" "Bad" false)
  = Raise (ValueError "time data does not match format '%m-%d-%Y'").
Proof. vm_compute. reflexivity. Qed.




(** The collection of the counterexample is loaded, rendered and written. *)
Example solo_collection_is_built :
  exists c' pages' fs',
    @CollectionPage_load Demo.env [] Demo.fs Demo.solo = Ok c'
    /\ map PostPage.datetime (CollectionPage.posts c') = [None]
    /\ CollectionPage.output c' = Some "<ul>only</ul>"
    /\ @build_site Demo.env [ACollectionPage Demo.solo] "out" Demo.fs = Ok (pages', fs')
    /\ files fs' !! "out/solo/index.html" = Some "<ul>only</ul>".
Proof.
  do 3 eexists. split; [vm_compute; reflexivity|]. split; [reflexivity|].
  split; [reflexivity|]. split; [vm_compute; reflexivity|]. vm_compute. reflexivity.
Qed.



(** C8, on a directory with a file named [.md]. The entry is a regular file
    and ends with the extension, so the aggregator constructs a post for it;
    but the identifier is the whole file name [.md], not the name without
    the extension, the source of the post is [.md.md], and loading the
    collection raises on that missing file. *)
Theorem discovery_of_dot_md_file :
  let c := CollectionPage_init "dot" "Dot" false in
  listdir Demo.fs (@collection_src_path Demo.env c) = Ok [".md"]
  /\ is_post_file Demo.fs (@collection_src_path Demo.env c) ".md" = true
  /\ exists p,
       for_each (discover_step Demo.fs c (@collection_src_path Demo.env c)) [".md"] [] = Ok [p]
       /\ PostPage.name p = ".md"
       /\ PostPage.name p +:+ ".md" <> ".md"
       /\ PostPage.src p = "dot/.md.md"
       /\ @CollectionPage_load Demo.env [] Demo.fs c
          = Raise (FileNotFoundError "in/dot/.md.md").
Proof.
  cbv zeta. split; [vm_compute; reflexivity|]. split; [vm_compute; reflexivity|].
  eexists. split; [vm_compute; reflexivity|].
  split; [reflexivity|]. split; [discriminate|]. split; [reflexivity|].
  vm_compute. reflexivity.
Qed.

(** C10, on a directory with the files [.md] and [.md.md]. Both are
    discovered, both posts get the identifier [.md] and read the file
    [.md.md], whose metadata has no title; the post discovered from the
    file [.md] is displayed with the title [.md], which is the whole name of
    its file, not the name without the extension. *)
Theorem title_of_dot_md_file :
  let c := CollectionPage_init "dots" "Dots" false in
  listdir Demo.fs (@collection_src_path Demo.env c) = Ok [".md"; ".md.md"]
  /\ exists p1 p2 c',
       for_each (discover_step Demo.fs c (@collection_src_path Demo.env c))
         [".md"; ".md.md"] [] = Ok [p1; p2]
       /\ PostPage.src p1 = "dots/.md.md" /\ PostPage.src p2 = "dots/.md.md"
       /\ @CollectionPage_load Demo.env [] Demo.fs c = Ok c'
       /\ map PostPage.title (CollectionPage.posts c') = [".md"; ".md"]
       /\ map (fun q => option_map metadata (PostPage.content q)) (CollectionPage.posts c')
          = [Some [("date", "12-31-2024"); ("hidden", "True")];
             Some [("date", "12-31-2024"); ("hidden", "True")]].
Proof.
  cbv zeta. split; [vm_compute; reflexivity|].
  do 3 eexists. split; [vm_compute; reflexivity|].
  split; [reflexivity|]. split; [reflexivity|].
  split; [vm_compute; reflexivity|]. split; reflexivity.
Qed.

(** * Further properties of the code *)

(** ** Construction and loading of a page *)



(** X3. A page that has no output, as every page has before it is loaded,
    cannot be written: [write] raises. *)
Theorem write_before_load_raises (p : Page) (out_dir : string) (fs : FS) :
  Page_output p = None -> raises (write p out_dir fs).
Proof.
  intros Hout. destruct p as [s|s|c|q]; cbn [write Page_output Page_target] in *.
  - rewrite Hout. eexists. reflexivity.
  - rewrite Hout. eexists. reflexivity.
  - unfold CollectionPage_write.
    destruct (for_each _ (CollectionPage.posts c) fs) as [fs1|e]; cbn [bind].
    + rewrite Hout. eexists. reflexivity.
    + exists e. reflexivity.
  - rewrite Hout. eexists. reflexivity.
Qed.

Lemma write_before_load_raises_witness :
  Page_output (ASinglePage (SinglePage_init "about" "About" false)) = None
  /\ raises (write (ASinglePage (SinglePage_init "about" "About" false)) "out" Demo.fs)
  /\ raises (write (ACollectionPage Demo.blog) "out" Demo.fs).
Proof.
  split; [reflexivity|]. split.
  - apply write_before_load_raises. reflexivity.
  - apply write_before_load_raises. reflexivity.
Defined.

Lemma metadata_step_unrecognized (k v : string) (p : PostPage.t) :
  recognized k = false -> metadata_step (k, v) p = Ok p.
Proof.
  unfold recognized, metadata_step. intros Hk.
  apply orb_false_iff in Hk as [Hk Hh]. apply orb_false_iff in Hk as [Hk Hd].
  apply orb_false_iff in Hk as [Ht Hs]. rewrite Ht, Hs, Hd, Hh. reflexivity.
Qed.

(** X4. When every key of the metadata of a post is other than [title],
    [subtitle], [date] and [hidden], compared with case, the load succeeds
    and assigns the content and the output only: title, subtitle, date and
    visibility stay as constructed. *)
Theorem unrecognized_keys_are_ignored `{Env} (navs : list Nav) (fs : FS) (p : PostPage.t)
    (text : string) :
  read_file fs (os_path.join input_dir (PostPage.src p)) = Ok text ->
  Forall (fun kv => recognized (fst kv) = false) (metadata (post_content text)) ->
  PostPage_load navs fs p = Ok (loaded_as_is navs (post_content text) p).
Proof.
  intros Ht Hall. rewrite (PostPage_load_eq _ _ _ _ Ht).
  assert (Hloop : for_each metadata_step (metadata (post_content text)) p = Ok p).
  { induction Hall as [|[k v] md Hk _ IH]; [reflexivity|].
    cbn [for_each]. rewrite (metadata_step_unrecognized k v p Hk). exact IH. }
  rewrite Hloop. reflexivity.
Qed.

Lemma unrecognized_keys_are_ignored_witness :
  metadata (@post_content Notes.env "note plain")
  = [("Title", "Shouted"); ("tags", "x"); ("Date", "01-05-2024"); ("Hidden", "true")]
  /\ exists q, @PostPage_load Notes.env [] Notes.fs Notes.plain = Ok q
       /\ PostPage.title q = "plain" /\ PostPage.datetime q = None
       /\ PostPage.hidden q = false
       /\ PostPage.output q = Some "<h1>plain</h1>".
Proof.
  split; [reflexivity|]. eexists. split.
  - apply (unrecognized_keys_are_ignored (H := Notes.env) [] Notes.fs Notes.plain "note plain").
    + reflexivity.
    + repeat (apply List.Forall_cons; [reflexivity|]). apply List.Forall_nil.
  - repeat split.
Defined.

(** *** Title and subtitle *)

Lemma for_each_app_inv {A S : Type} (body : A -> S -> result S) (l1 l2 : list A) (st st' : S) :
  for_each body (l1 ++ l2) st = Ok st' ->
  exists st1, for_each body l1 st = Ok st1 /\ for_each body l2 st1 = Ok st'.
Proof.
  rewrite for_each_app. intros Hst. apply bind_ok_inv in Hst as (st1 & H1 & H2).
  exists st1. split; assumption.
Qed.

Lemma metadata_step_subtitle (k v : string) (p q : PostPage.t) :
  k <> "subtitle" -> metadata_step (k, v) p = Ok q ->
  PostPage.subtitle q = PostPage.subtitle p.
Proof.
  intros Hk. step_cases k; subst; try contradiction.
  - intros [= <-]. reflexivity.
  - destruct (datetime.strptime v) as [dt|err]; simpl; [|discriminate].
    intros [= <-]. reflexivity.
  - destruct (String.eqb (str.lower v) "true"); intros [= <-]; reflexivity.
  - intros [= <-]. reflexivity.
Qed.

Lemma metadata_loop_subtitle (md : list (string * string)) (p q : PostPage.t) :
  (forall v, ~ In ("subtitle", v) md) ->
  for_each metadata_step md p = Ok q -> PostPage.subtitle q = PostPage.subtitle p.
Proof.
  revert p. induction md as [|[k v] md IH]; intros p Hno; simpl.
  - intros [= <-]. reflexivity.
  - intros Hq. apply bind_ok_inv in Hq as (p1 & H1 & Hq).
    rewrite (IH p1); [| intros w Hw; apply (Hno w); right; exact Hw | exact Hq].
    eapply metadata_step_subtitle; [| exact H1].
    intros ->. apply (Hno v). left. reflexivity.
Qed.

Lemma NoDup_key_split (md l1 l2 : list (string * string)) (k v : string) :
  NoDup (map fst md) -> md = l1 ++ (k, v) :: l2 ->
  (forall w, ~ In (k, w) l1) /\ (forall w, ~ In (k, w) l2).
Proof.
  intros Hnd ->. rewrite map_app in Hnd. simpl in Hnd.
  apply NoDup_ListNoDup, NoDup_remove_2 in Hnd.
  split; intros w Hw; apply Hnd, in_or_app; [left | right]; apply (in_map fst) in Hw; exact Hw.
Qed.

(** X5. After a successful load the title of a post is the value of the key
    [title] of its metadata and its subtitle the value of the key
    [subtitle]; an attribute whose key is missing keeps the value it had
    before the load. *)
Theorem post_title_and_subtitle `{Env} (navs : list Nav) (fs : FS) (p q : PostPage.t)
    (content : Markdown) :
  PostPage_load navs fs p = Ok q ->
  PostPage.content q = Some content ->
  NoDup (map fst (metadata content)) ->
  (forall v, In ("title", v) (metadata content) -> PostPage.title q = v)
  /\ ((forall v, ~ In ("title", v) (metadata content)) -> PostPage.title q = PostPage.title p)
  /\ (forall v, In ("subtitle", v) (metadata content) -> PostPage.subtitle q = Some v)
  /\ ((forall v, ~ In ("subtitle", v) (metadata content))
      -> PostPage.subtitle q = PostPage.subtitle p).
Proof.
  intros Hq Hc Hnd.
  apply PostPage_load_inv in Hq as (text & q0 & _ & Hm & ->).
  cbn in Hc. injection Hc as <-. cbn [PostPage.title PostPage.subtitle PostPage.set_output PostPage.set_content].
  repeat split.
  - intros v Hin. apply in_split in Hin as (l1 & l2 & Hsplit).
    destruct (NoDup_key_split _ _ _ _ _ Hnd Hsplit) as [_ Hl2].
    rewrite Hsplit in Hm. apply for_each_app_inv in Hm as (p1 & _ & Hm).
    cbn [for_each] in Hm. apply bind_ok_inv in Hm as (p2 & H2 & Hm).
    rewrite (metadata_loop_title _ _ _ Hl2 Hm).
    injection H2 as <-. reflexivity.
  - intros Hno. apply (metadata_loop_title _ _ _ Hno Hm).
  - intros v Hin. apply in_split in Hin as (l1 & l2 & Hsplit).
    destruct (NoDup_key_split _ _ _ _ _ Hnd Hsplit) as [_ Hl2].
    rewrite Hsplit in Hm. apply for_each_app_inv in Hm as (p1 & _ & Hm).
    cbn [for_each] in Hm. apply bind_ok_inv in Hm as (p2 & H2 & Hm).
    rewrite (metadata_loop_subtitle _ _ _ Hl2 Hm).
    injection H2 as <-. reflexivity.
  - intros Hno. apply (metadata_loop_subtitle _ _ _ Hno Hm).
Qed.


Lemma post_title_and_subtitle_witness :
  exists q, @PostPage_load Notes.env [] Notes.fs Notes.full = Ok q
    /\ PostPage.title Notes.full = "full"
    /\ PostPage.title q = "My title" /\ PostPage.subtitle q = Some "Sub".
Proof.
  destruct (@PostPage_load Notes.env [] Notes.fs Notes.full) as [q|e] eqn:Hq;
    [|vm_compute in Hq; discriminate Hq].
  exists q. split; [reflexivity|]. split; [reflexivity|].
  assert (Hc : PostPage.content q = Some (@post_content Notes.env "note full")).
  { vm_compute in Hq. injection Hq as <-. reflexivity. }
  assert (Hnd : NoDup (map fst (metadata (@post_content Notes.env "note full")))).
  { apply (bool_decide_unpack _). vm_compute. exact I. }
  destruct (post_title_and_subtitle (H := Notes.env) [] Notes.fs Notes.full q _ Hq Hc Hnd)
    as (Ht & _ & Hs & _).
  split; [apply Ht | apply Hs].
  - left. reflexivity.
  - right. left. reflexivity.
Defined.

(** X6. A front page among the pages always has an entry in the navigation
    list, and the entry is [home], [Home], [FrontPage] whatever name and
    title the page was constructed with. *)
Theorem front_page_is_in_navigation (name title : string) (pages : list Page) :
  In (AFrontPage (FrontPage_init name title)) pages ->
  In {| nav_name := "home"; nav_title := "Home"; nav_type_name := "FrontPage" |}
     (navigation pages).
Proof.
  intros Hin. unfold navigation.
  apply (in_map nav_entry _ (AFrontPage (FrontPage_init name title))).
  apply List.filter_In. split; [exact Hin | reflexivity].
Qed.

Lemma front_page_is_in_navigation_witness :
  In {| nav_name := "home"; nav_title := "Home"; nav_type_name := "FrontPage" |}
     (navigation Demo.pages).
Proof.
  apply (front_page_is_in_navigation "index" "Start" Demo.pages). left. reflexivity.
Defined.

(** *** The shape of the content identifier *)

Lemma hex_digit_in (n : Z) : In (hashlib.hex_digit n) hashlib.hex_digits.
Proof.
  unfold hashlib.hex_digit. generalize (Z.to_nat n). intros k.
  do 16 (destruct k as [|k]; [cbn; repeat first [left; reflexivity | right]|]).
  assert (E : nth (16 + k) hashlib.hex_digits "f"%char = "f"%char)
    by (cbn; destruct k; reflexivity).
  cbn [Nat.add] in E. rewrite E. cbn. repeat first [left; reflexivity | right].
Qed.

Lemma hex32_chars (w : Z) (rest : string) :
  exists a b c d e f g h,
    hashlib.hex32 w rest
    = String a (String b (String c (String d (String e (String f (String g (String h rest)))))))
    /\ Forall (fun x => In x hashlib.hex_digits) [a; b; c; d; e; f; g; h].
Proof.
  unfold hashlib.hex32. cbn [fold_right].
  do 8 eexists. split; [reflexivity|].
  repeat (apply List.Forall_cons; [apply hex_digit_in|]). apply List.Forall_nil.
Qed.

Lemma hexdigest_chars (s : hashlib.state) :
  String.length (hashlib.hexdigest s) = 40%nat
  /\ Forall (fun x => In x hashlib.hex_digits) (str.chars (hashlib.hexdigest s)).
Proof.
  unfold hashlib.hexdigest.
  destruct (hex32_chars (hashlib.h4 s) "") as (a4 & b4 & c4 & d4 & e4 & f4 & g4 & h4 & -> & H4).
  destruct (hex32_chars (hashlib.h3 s) (String a4 (String b4 (String c4 (String d4 (String e4 (String f4 (String g4 (String h4 "")))))))))
    as (a3 & b3 & c3 & d3 & e3 & f3 & g3 & h3 & -> & H3).
  match goal with |- context [hashlib.hex32 (hashlib.h2 s) ?r] =>
    destruct (hex32_chars (hashlib.h2 s) r) as (a2 & b2 & c2 & d2 & e2 & f2 & g2 & h2 & -> & H2) end.
  match goal with |- context [hashlib.hex32 (hashlib.h1 s) ?r] =>
    destruct (hex32_chars (hashlib.h1 s) r) as (a1 & b1 & c1 & d1 & e1 & f1 & g1 & h1 & -> & H1) end.
  match goal with |- context [hashlib.hex32 (hashlib.h0 s) ?r] =>
    destruct (hex32_chars (hashlib.h0 s) r) as (a0 & b0 & c0 & d0 & e0 & f0 & g0 & h0 & -> & H0) end.
  split; [reflexivity|]. cbn [str.chars].
  repeat match goal with H : Forall _ (_ :: _) |- _ => inversion H; subst; clear H end.
  repeat (apply List.Forall_cons; [assumption|]). apply List.Forall_nil.
Qed.

(** X7. The identifier of a post is a text of 40 characters, each a
    lower-case hexadecimal digit; it has no separator and no dot, so it is a
    single path component. *)
Theorem content_id_is_forty_hex_digits (name title : string) (c : CollectionPage.t) :
  exists p, PostPage_init name title (Some (ACollectionPage c)) = Ok p
    /\ String.length (PostPage.uuid p) = 40%nat
    /\ Forall (fun x => In x (str.chars "0123456789abcdef")) (str.chars (PostPage.uuid p))
    /\ ~ In "/"%char (str.chars (PostPage.uuid p))
    /\ ~ In "."%char (str.chars (PostPage.uuid p)).
Proof.
  destruct (PostPage_init_ok name title c) as (p & Hp & _ & _ & _ & _ & _ & _ & Hu & _).
  exists p. split; [exact Hp|]. rewrite Hu.
  destruct (hexdigest_chars (hashlib.sha1 (str.encode name))) as [Hlen Hall].
  split; [exact Hlen|]. split; [exact Hall|].
  rewrite List.Forall_forall in Hall.
  split; intros Hin; apply Hall in Hin; cbn in Hin;
    repeat (destruct Hin as [Hin|Hin]; [discriminate Hin|]); exact Hin.
Qed.

(** ** The date format *)










Lemma append_nil (s : string) : s +:+ "" = s.
Proof.
  induction s as [|a s IH]; [reflexivity|].
  change (String a s +:+ "") with (String a (s +:+ "")). rewrite IH. reflexivity.
Qed.




Lemma format_regex_month_unpadded (m : Z) (X : string) :
  1 <= m <= 12 ->
  datetime.format_regex (str.of_Z m +:+ "-" +:+ X) = after_m (str.of_Z m) ("-" +:+ X).
Proof.
  intros Hm. rewrite <- (app_nil_r (after_m (str.of_Z m) ("-" +:+ X))).
  assert (Hcases : m = 1 \/ m = 2 \/ m = 3 \/ m = 4 \/ m = 5 \/ m = 6 \/ m = 7 \/ m = 8
                   \/ m = 9 \/ m = 10 \/ m = 11 \/ m = 12) by lia.
  repeat (destruct Hcases as [->|Hcases]); try subst m; reflexivity.
Qed.

Lemma after_m_day_unpadded (mt : string) (d : Z) (X : string) :
  1 <= d <= 31 ->
  after_m mt ("-" +:+ str.of_Z d +:+ "-" +:+ X) = after_d mt (str.of_Z d) ("-" +:+ X).
Proof.
  intros Hd. rewrite <- (app_nil_r (after_d mt (str.of_Z d) ("-" +:+ X))).
  rewrite <- (app_nil_r (after_d mt (str.of_Z d) ("-" +:+ X) ++ [])).
  assert (Hcases : d = 1 \/ d = 2 \/ d = 3 \/ d = 4 \/ d = 5 \/ d = 6 \/ d = 7 \/ d = 8
                   \/ d = 9 \/ d = 10 \/ d = 11 \/ d = 12 \/ d = 13 \/ d = 14 \/ d = 15
                   \/ d = 16 \/ d = 17 \/ d = 18 \/ d = 19 \/ d = 20 \/ d = 21 \/ d = 22
                   \/ d = 23 \/ d = 24 \/ d = 25 \/ d = 26 \/ d = 27 \/ d = 28 \/ d = 29
                   \/ d = 30 \/ d = 31) by lia.
  repeat (destruct Hcases as [->|Hcases]); try subst d; reflexivity.
Qed.

Lemma int_of_Z_small (n : Z) : 1 <= n <= 31 -> datetime.int (str.of_Z n) = n.
Proof.
  intros Hn.
  assert (Hcases : n = 1 \/ n = 2 \/ n = 3 \/ n = 4 \/ n = 5 \/ n = 6 \/ n = 7 \/ n = 8
                   \/ n = 9 \/ n = 10 \/ n = 11 \/ n = 12 \/ n = 13 \/ n = 14 \/ n = 15
                   \/ n = 16 \/ n = 17 \/ n = 18 \/ n = 19 \/ n = 20 \/ n = 21 \/ n = 22
                   \/ n = 23 \/ n = 24 \/ n = 25 \/ n = 26 \/ n = 27 \/ n = 28 \/ n = 29
                   \/ n = 30 \/ n = 31) by lia.
  repeat (destruct Hcases as [->|Hcases]); try subst n; reflexivity.
Qed.

(** X9. Every date of the calendar is read back from its text in the
    format, with the month and the day on two digits and also without the
    padding. *)
Theorem strptime_reads_back_dates (x : datetime.t) :
  datetime.valid (datetime.year x) (datetime.month x) (datetime.day x) = true ->
  datetime.strptime (strftime_mdY x) = Ok x
  /\ datetime.strptime (strftime_mdY_unpadded x) = Ok x.
Proof.
  intros Hv. split; [apply strptime_strftime, Hv|].
  destruct x as [y m d]. cbn [datetime.year datetime.month datetime.day] in *.
  pose proof Hv as Hv'. unfold datetime.valid in Hv'.
  rewrite !andb_true_iff, !Z.leb_le in Hv'. destruct Hv' as [[[[[Hy1 Hy2] Hm1] Hm2] Hd1] Hd2].
  assert (Hd3 : d <= 31).
  { unfold datetime.days_in_month in Hd2.
    destruct (m =? 2); [destruct (datetime.is_leap y); lia|].
    destruct ((m =? 4) || (m =? 6) || (m =? 9) || (m =? 11)); lia. }
  unfold datetime.strptime, strftime_mdY_unpadded.
  cbn [datetime.year datetime.month datetime.day].
  rewrite format_regex_month_unpadded by lia. rewrite after_m_day_unpadded by lia.
  unfold after_d. change ("-" +:+ pad4 y) with (String "-" (pad4 y)).
  change (datetime.lit "-" (String "-" (pad4 y))) with [("-", pad4 y)].
  cbn [flat_map]. rewrite app_nil_r. unfold pad4 at 1.
  rewrite re_Y_digits by div_lia.
  cbn [map]. cbn [String.eqb negb].
  rewrite !int_digits by div_lia.
  rewrite !int_of_Z_small by lia.
  replace (1000 * (y / 1000) + 100 * (y / 100 mod 10) + 10 * (y / 10 mod 10) + y mod 10)
    with y by div_lia.
  rewrite Hv. reflexivity.
Qed.

Lemma strptime_reads_back_dates_witness :
  strftime_mdY (datetime.Datetime 2024 2 29) = "02-29-2024"
  /\ strftime_mdY_unpadded (datetime.Datetime 2024 2 29) = "2-29-2024"
  /\ datetime.strptime "02-29-2024" = Ok (datetime.Datetime 2024 2 29)
  /\ datetime.strptime "2-29-2024" = Ok (datetime.Datetime 2024 2 29).
Proof.
  split; [reflexivity|]. split; [reflexivity|].
  exact (strptime_reads_back_dates (datetime.Datetime 2024 2 29) eq_refl).
Defined.

(** ** Paths *)

Lemma startswith_append (b f : string) (p : ascii) :
  b <> "" -> str.startswith (b +:+ f) (String p "") = str.startswith b (String p "").
Proof.
  destruct b as [|c b]; [congruence|]. intros _.
  change (String c b +:+ f) with (String c (b +:+ f)). cbn [str.startswith].
  rewrite !startswith_nil. reflexivity.
Qed.

Lemma endswith_append (a b : string) (p : ascii) :
  b <> "" -> str.endswith (a +:+ b) (String p "") = str.endswith b (String p "").
Proof.
  intros Hb. unfold str.endswith. rewrite str_rev_app.
  change (str.rev (String p "")) with (String p "").
  apply startswith_append, str_rev_nonempty, Hb.
Qed.

Lemma append_nonempty_r (a b : string) : b <> "" -> a +:+ b <> "".
Proof.
  intros Hb. destruct a as [|c a]; [exact Hb|].
  change (String c a +:+ b) with (String c (a +:+ b)). discriminate.
Qed.

Lemma append_nonempty_l (a b : string) : a <> "" -> a +:+ b <> "".
Proof.
  destruct a as [|c a]; [congruence|]. intros _.
  change (String c a +:+ b) with (String c (a +:+ b)). discriminate.
Qed.

Lemma eqb_nonempty (a : string) : a <> "" -> String.eqb a "" = false.
Proof. intros Ha. destruct (String.eqb_spec a ""); [contradiction | reflexivity]. Qed.

Lemma join_absolute (a b : string) : str.startswith b "/" = true -> os_path.join a b = b.
Proof. intros Hb. unfold os_path.join. rewrite Hb. reflexivity. Qed.

Lemma join_relative (a b : string) :
  str.startswith b "/" = false ->
  os_path.join a b
  = if String.eqb a "" || str.endswith a "/" then a +:+ b else a +:+ "/" +:+ b.
Proof. intros Hb. unfold os_path.join. rewrite Hb. reflexivity. Qed.

(** [os.path.join] is associative when the last part is relative. *)
Lemma join_assoc (a b f : string) :
  str.startswith f "/" = false ->
  os_path.join a (os_path.join b f) = os_path.join (os_path.join a b) f.
Proof.
  intros Hf. rewrite (join_relative b f Hf), (join_relative (os_path.join a b) f Hf).
  destruct (str.startswith b "/") eqn:Hb.
  - (* b is absolute *)
    assert (Hbne : b <> "") by (intros ->; discriminate).
    rewrite (join_absolute a b Hb), (eqb_nonempty b Hbne). cbn [orb].
    apply join_absolute.
    destruct (str.endswith b "/"); rewrite (startswith_append b _ "/" Hbne); exact Hb.
  - rewrite (join_relative a b Hb).
    destruct (String.eqb_spec b "") as [->|Hbne].
    + (* b is empty *)
      cbn [orb]. change ("" +:+ f) with f. rewrite (join_relative a f Hf).
      destruct (String.eqb_spec a "") as [->|Hane]; cbn [orb]; [reflexivity|].
      destruct (str.endswith a "/") eqn:Ha.
      * rewrite append_nil, Ha, orb_true_r. reflexivity.
      * assert (Hsl : str.endswith (a +:+ "/" +:+ "") "/" = true).
        { rewrite endswith_append by discriminate. reflexivity. }
        rewrite Hsl, orb_true_r. rewrite str_append_assoc. reflexivity.
    + (* b is relative and not empty *)
      cbn [orb].
      set (X := if str.endswith b "/" then b +:+ f else b +:+ "/" +:+ f).
      assert (HX : str.startswith X "/" = false).
      { unfold X. destruct (str.endswith b "/");
          rewrite (startswith_append b _ "/" Hbne); exact Hb. }
      rewrite (join_relative a X HX).
      set (A := if String.eqb a "" || str.endswith a "/" then a +:+ b else a +:+ "/" +:+ b).
      assert (HA : A <> "").
      { unfold A. destruct (String.eqb a "" || str.endswith a "/").
        - apply append_nonempty_r, Hbne.
        - apply append_nonempty_r, append_nonempty_r, Hbne. }
      assert (HAe : str.endswith A "/" = str.endswith b "/").
      { unfold A. destruct (String.eqb a "" || str.endswith a "/").
        - apply endswith_append, Hbne.
        - rewrite <- str_append_assoc. apply endswith_append, Hbne. }
      rewrite (eqb_nonempty A HA), HAe. cbn [orb]. unfold A, X.
      destruct (String.eqb a "" || str.endswith a "/"), (str.endswith b "/");
        rewrite ?str_append_assoc; reflexivity.
Qed.

Lemma endswith_sep_in (s : string) :
  str.endswith s "/" = true -> In "/"%char (str.chars s).
Proof.
  intros Hs. apply endswith_spec in Hs as [t ->].
  induction t as [|a t IH].
  - left. reflexivity.
  - change (String a t +:+ "/") with (String a (t +:+ "/")). right. exact IH.
Qed.

Lemma index_path_relative (out name : string) :
  out <> "" -> str.endswith out "/" = false -> relative_name name ->
  index_path out name = out +:+ "/" +:+ name +:+ "/index.html".
Proof.
  intros Hout Hsep (Hne & Hs & He). unfold index_path.
  rewrite (join_relative out name Hs), (eqb_nonempty out Hout), Hsep. cbn [orb].
  rewrite (join_relative _ "index.html" eq_refl).
  assert (Hn : out +:+ "/" +:+ name <> "") by (apply append_nonempty_l, Hout).
  rewrite (eqb_nonempty _ Hn). cbn [orb].
  rewrite <- (str_append_assoc out "/" name), (endswith_append _ name "/" Hne), He.
  rewrite !str_append_assoc. reflexivity.
Qed.

Lemma hexdigest_no_sep (s : hashlib.state) :
  ~ In "/"%char (str.chars (hashlib.hexdigest s)).
Proof.
  destruct (hexdigest_chars s) as [_ Hall]. rewrite List.Forall_forall in Hall.
  intros Hin. apply Hall in Hin. cbn in Hin.
  repeat (destruct Hin as [Hin|Hin]; [discriminate Hin|]). exact Hin.
Qed.

(** X10. With an output directory that is not empty and does not end with
    the separator, [write] puts the front page in [index.html] of the output
    directory, a page or a collection with a relative name in
    [name/index.html], and a post in [collection/identifier/index.html]. A
    page whose name starts with the separator is written under that absolute
    path, outside the output directory. *)
Theorem output_layout (out : string) :
  out <> "" -> str.endswith out "/" = false ->
  (forall name title,
     index_path out (SinglePage.target (FrontPage_init name title)) = out +:+ "/index.html")
  /\ (forall name title hidden, relative_name name ->
        index_path out (SinglePage.target (SinglePage_init name title hidden))
        = out +:+ "/" +:+ name +:+ "/index.html"
        /\ index_path out (CollectionPage.target (CollectionPage_init name title hidden))
           = out +:+ "/" +:+ name +:+ "/index.html")
  /\ (forall name title c p, relative_name (CollectionPage.name c) ->
        PostPage_init name title (Some (ACollectionPage c)) = Ok p ->
        index_path out (PostPage.target p)
        = out +:+ "/" +:+ CollectionPage.name c +:+ "/" +:+ PostPage.uuid p +:+ "/index.html")
  /\ (forall name title hidden, str.startswith name "/" = true -> str.endswith name "/" = false ->
        index_path out (SinglePage.target (SinglePage_init name title hidden))
        = name +:+ "/index.html").
Proof.
  intros Hout Hsep. repeat split.
  - intros name title. change (index_path out "" = out +:+ "/index.html"). unfold index_path.
    rewrite (join_relative out "" eq_refl), (eqb_nonempty out Hout), Hsep. cbn [orb].
    rewrite (join_relative _ "index.html" eq_refl).
    assert (E : str.endswith (out +:+ "/" +:+ "") "/" = true).
    { rewrite append_nil. rewrite endswith_append by discriminate. reflexivity. }
    rewrite E, orb_true_r, append_nil, str_append_assoc. reflexivity.
  - change (index_path out name = out +:+ "/" +:+ name +:+ "/index.html").
    apply index_path_relative; assumption.
  - change (index_path out name = out +:+ "/" +:+ name +:+ "/index.html").
    apply index_path_relative; assumption.
  - intros name title c p Hc Hp.
    destruct Hc as (Hne & Hs & He).
    rewrite (PostPage_target_under_collection name title c p Hp Hne He).
    assert (Hu : PostPage.uuid p = hashlib.hexdigest (hashlib.sha1 (str.encode name))).
    { injection Hp as <-. reflexivity. }
    rewrite index_path_relative; [rewrite !str_append_assoc; reflexivity | assumption.. |].
    assert (Hune : PostPage.uuid p <> "").
    { rewrite Hu. unfold hashlib.hexdigest, hashlib.hex32 at 1. cbn [fold_right]. discriminate. }
    repeat split.
    + apply append_nonempty_l, Hne.
    + rewrite (startswith_append _ _ "/" Hne). exact Hs.
    + rewrite <- str_append_assoc, (endswith_append _ _ "/" Hune).
      destruct (str.endswith (PostPage.uuid p) "/") eqn:E; [|reflexivity].
      apply endswith_sep_in in E. rewrite Hu in E.
      exfalso. revert E. apply hexdigest_no_sep.
  - intros name title hidden Hs He. change (index_path out name = name +:+ "/index.html").
    unfold index_path.
    rewrite (join_absolute out name Hs), (join_relative _ "index.html" eq_refl), He.
    assert (Hne : name <> "") by (intros ->; discriminate).
    rewrite (eqb_nonempty name Hne). reflexivity.
Qed.

Lemma output_layout_witness :
  index_path "out" (SinglePage.target (FrontPage_init "index" "Start")) = "out/index.html"
  /\ index_path "out" (CollectionPage.target Demo.blog) = "out/blog/index.html"
  /\ index_path "out" (PostPage.target Demo.post_a)
     = "out/blog/86f7e437faa5a7fce15d1ddcb9eaeaea377667b8/index.html"
  /\ index_path "out" (SinglePage.target (SinglePage_init "/srv/www" "Root" false))
     = "/srv/www/index.html".
Proof.
  assert (Hout : "out" <> "") by discriminate.
  assert (Hblog : relative_name "blog") by (repeat split; discriminate).
  destruct (output_layout "out" Hout eq_refl) as (Hfront & Hnamed & Hpost & Habs).
  split; [exact (Hfront "index" "Start")|].
  split; [exact (proj2 (Hnamed "blog" "Blog" false Hblog))|].
  split; [exact (Hpost "a" "a" Demo.blog Demo.post_a Hblog eq_refl)|].
  exact (Habs "/srv/www" "Root" false eq_refl eq_refl).
Defined.

(** X11. For a file [stem.md] of the directory of a collection, where the
    stem has no separator and is not made of dots only, the post the
    aggregator constructs is named by the stem, and the path its load reads
    is the path of that file: when the aggregator's test accepted the file,
    the source of the post exists. *)
Theorem discovered_post_reads_listed_file `{Env} (fs : FS) (name title stem : string)
    (hidden : bool) (p : PostPage.t) :
  let c := CollectionPage_init name title hidden in
  regular_stem stem ->
  constructed c (stem +:+ ".md") p ->
  PostPage.name p = stem
  /\ os_path.join input_dir (PostPage.src p)
     = os_path.join (collection_src_path c) (stem +:+ ".md")
  /\ (is_post_file fs (collection_src_path c) (stem +:+ ".md") = true ->
      exists text, read_file fs (os_path.join input_dir (PostPage.src p)) = Ok text).
Proof.
  intros c [Hsep Hdot] Hp. unfold constructed in Hp.
  rewrite (post_identifier_md stem Hsep Hdot) in Hp.
  destruct (PostPage_init_ok stem stem c) as (p' & Hp' & Hn & _ & _ & _ & _ & Hsrc & _).
  rewrite Hp in Hp'. injection Hp' as <-.
  assert (Hf : str.startswith (stem +:+ ".md") "/" = false).
  { destruct stem as [|a stem]; [reflexivity|].
    rewrite (startswith_append (String a stem) ".md" "/") by discriminate.
    apply startswith_sep_absent, Hsep. }
  assert (Hpath : os_path.join input_dir (PostPage.src p)
                  = os_path.join (collection_src_path c) (stem +:+ ".md")).
  { rewrite Hsrc. unfold collection_src_path. apply join_assoc, Hf. }
  split; [exact Hn|]. split; [exact Hpath|].
  intros Hpost. rewrite Hpath. unfold is_post_file in Hpost.
  apply andb_true_iff in Hpost as [Hfile _]. unfold isfile in Hfile. unfold read_file.
  destruct (files fs !! os_path.join (collection_src_path c) (stem +:+ ".md")) as [text|];
    [exists text; reflexivity | discriminate].
Qed.

Lemma discovered_post_reads_listed_file_witness :
  regular_stem "a"
  /\ constructed Demo.blog "a.md" Demo.post_a
  /\ os_path.join (@input_dir Demo.env) (PostPage.src Demo.post_a) = "in/blog/a.md"
  /\ exists text,
       read_file Demo.fs (os_path.join (@input_dir Demo.env) (PostPage.src Demo.post_a))
       = Ok text.
Proof.
  assert (Hstem : regular_stem "a").
  { split; [|reflexivity]. intros [E|[]]. discriminate E. }
  assert (Hc : constructed Demo.blog "a.md" Demo.post_a) by (vm_compute; reflexivity).
  destruct (discovered_post_reads_listed_file (H := Demo.env) Demo.fs "blog" "Blog" "a" false
              Demo.post_a Hstem Hc) as (_ & Hpath & Hread).
  split; [exact Hstem|]. split; [exact Hc|]. split; [reflexivity|].
  apply Hread. vm_compute. reflexivity.
Defined.



(** ** The collection *)

Section SortErrors.
Context {A : Type} (key : A -> option datetime.t).

Lemma insert_raises_TypeError (x : A) (l : list A) (e : exn) :
  list_sort.insert key key_lt x l = Raise e -> is_TypeError e.
Proof.
  induction l as [|y l IH]; cbn [list_sort.insert]; [discriminate|].
  destruct (key_lt (key y) (key x)) as [b|e'] eqn:Hlt; cbn [bind].
  - destruct b; [|discriminate].
    destruct (list_sort.insert key key_lt x l) as [r|e'] eqn:Hi; cbn [bind]; [discriminate|].
    intros [= <-]. apply IH. reflexivity.
  - intros [= <-]. unfold key_lt in Hlt.
    destruct (key y), (key x); try discriminate; injection Hlt as <-; eexists; reflexivity.
Qed.

Lemma sort_asc_raises_TypeError (l : list A) (e : exn) :
  list_sort.sort_asc key key_lt l = Raise e -> is_TypeError e.
Proof.
  induction l as [|x l IH]; cbn [list_sort.sort_asc]; [discriminate|].
  destruct (list_sort.sort_asc key key_lt l) as [r|e'] eqn:Hs; cbn [bind].
  - apply insert_raises_TypeError.
  - intros [= <-]. apply IH. reflexivity.
Qed.

Lemma sort_raises_TypeError (reverse : bool) (l : list A) (e : exn) :
  list_sort.sort key key_lt reverse l = Raise e -> is_TypeError e.
Proof.
  unfold list_sort.sort. destruct reverse.
  - destruct (list_sort.sort_asc key key_lt (List.rev l)) as [r|e'] eqn:Hs; cbn [bind];
      [discriminate|].
    intros [= <-]. eapply sort_asc_raises_TypeError. exact Hs.
  - apply sort_asc_raises_TypeError.
Qed.

Lemma sort_reverse_ok_dated (l r : list A) :
  list_sort.sort key key_lt true l = Ok r -> (2 <= length l)%nat -> Forall (dated key) l.
Proof.
  unfold list_sort.sort. intros Hs Hlen.
  apply bind_ok_inv in Hs as (r' & Hs & _).
  apply sort_asc_ok_dated in Hs; [|rewrite length_rev; exact Hlen].
  rewrite List.Forall_forall in *. intros x Hx. apply Hs. apply in_rev in Hx. exact Hx.
Qed.

End SortErrors.

(** X13. When the directory is listed and every post is loaded, the load of
    the collection succeeds exactly when there is at most one post or every
    post has a timestamp; when it fails, the exception is a [TypeError]. *)
Theorem collection_load_outcome `{Env} (navs : list Nav) (fs : FS) (c : CollectionPage.t)
    (names : list string) (found loaded : list PostPage.t) :
  listdir fs (collection_src_path c) = Ok names ->
  for_each (discover_step fs c (collection_src_path c)) names (CollectionPage.posts c)
    = Ok found ->
  map_result (PostPage_load navs fs) found = Ok loaded ->
  ((exists c', CollectionPage_load navs fs c = Ok c')
   <-> (length loaded <= 1)%nat \/ Forall (dated PostPage.datetime) loaded)
  /\ (forall e, CollectionPage_load navs fs c = Raise e -> is_TypeError e).
Proof.
  intros Hn Hf Hl. rewrite (CollectionPage_load_eq navs fs c names found loaded Hn Hf Hl).
  unfold sort_posts. split; [split|].
  - intros [c' Hc]. apply bind_ok_inv in Hc as (sorted & Hs & _).
    destruct (Nat.le_gt_cases (length loaded) 1) as [Hle|Hgt]; [left; exact Hle|].
    right. eapply sort_reverse_ok_dated; [exact Hs | lia].
  - intros [Hle|Hd].
    + rewrite (sort_reverse_short PostPage.datetime loaded Hle). eexists. reflexivity.
    + destruct (sort_reverse_dated PostPage.datetime loaded Hd) as (r & Hr & _).
      rewrite Hr. eexists. reflexivity.
  - intros e He.
    destruct (list_sort.sort PostPage.datetime key_lt true loaded) as [r|e'] eqn:Hs;
      cbn [bind] in He; [discriminate|].
    injection He as <-. eapply sort_raises_TypeError. exact Hs.
Qed.

Lemma collection_load_outcome_witness :
  (exists c', @CollectionPage_load Demo.env [] Demo.fs Demo.blog = Ok c')
  /\ Forall (dated PostPage.datetime) Demo.loaded
  /\ forall e, @CollectionPage_load Demo.env [] Demo.fs Demo.pair = Raise e -> is_TypeError e.
Proof.
  destruct (collection_load_outcome (H := Demo.env) [] Demo.fs Demo.blog
              ["a.md"; "drafts"; "b.md"; "notes.txt"; "c.md"] Demo.found Demo.loaded)
    as [Hiff _]; [vm_compute; reflexivity..|].
  assert (Hd : Forall (dated PostPage.datetime) Demo.loaded).
  { repeat (apply List.Forall_cons; [eexists; reflexivity|]). apply List.Forall_nil. }
  split; [apply Hiff; right; exact Hd|]. split; [exact Hd|].
  destruct (collection_load_outcome (H := Demo.env) [] Demo.fs Demo.pair
              ["a.md"; "v.md"] [Demo.pair_a; Demo.pair_v]
              (match map_result (@PostPage_load Demo.env [] Demo.fs) [Demo.pair_a; Demo.pair_v]
               with Ok l => l | Raise _ => [] end))
    as [_ Hexn]; [vm_compute; reflexivity..|].
  exact Hexn.
Defined.

Lemma discover_loop_eq (fs : FS) (c : CollectionPage.t) (src_path : string)
    (names : list string) (posts0 found : list PostPage.t) :
  for_each (discover_step fs c src_path) names posts0 = Ok found ->
  exists new, found = posts0 ++ new
    /\ Forall2 (constructed c) (List.filter (is_post_file fs src_path) names) new.
Proof.
  intros Hf. destruct (discover_loop fs c src_path names posts0) as (new & Hnew & Hall).
  rewrite Hf in Hnew. injection Hnew as ->. exists new. split; [reflexivity | exact Hall].
Qed.



(** X15. A second load of a collection discovers the posts again and adds
    them to those it has: when it succeeds, the collection has twice the
    posts of the first load. *)
Theorem collection_load_twice `{Env} (navs navs' : list Nav) (fs : FS)
    (c c1 c2 : CollectionPage.t) :
  CollectionPage.posts c = [] ->
  CollectionPage_load navs fs c = Ok c1 ->
  CollectionPage_load navs' fs c1 = Ok c2 ->
  length (CollectionPage.posts c2) = (2 * length (CollectionPage.posts c1))%nat.
Proof.
  intros Hnil H1 H2.
  apply CollectionPage_load_inv in H1
    as (names & found & loaded & sorted & Hn & Hf & Hl & Hs & ->).
  apply CollectionPage_load_inv in H2
    as (names' & found' & loaded' & sorted' & Hn' & Hf' & Hl' & Hs' & ->).
  change (collection_src_path (rendered navs c sorted)) with (collection_src_path c) in *.
  rewrite Hn in Hn'. injection Hn' as <-.
  change (CollectionPage.posts (rendered navs c sorted)) with sorted in *.
  change (CollectionPage.posts (rendered navs' (rendered navs c sorted) sorted'))
    with sorted'.
  rewrite Hnil in Hf.
  apply discover_loop_eq in Hf as (new & -> & Hnew).
  apply discover_loop_eq in Hf' as (new' & -> & Hnew').
  apply sort_posts_permutation in Hs, Hs'.
  apply map_result_Forall2 in Hl, Hl'.
  rewrite (Permutation_length Hs'), <- (Forall2_length _ _ _ Hl'), length_app.
  rewrite <- (Forall2_length _ _ _ Hnew').
  rewrite (Permutation_length Hs), <- (Forall2_length _ _ _ Hl).
  cbn [app]. rewrite <- (Forall2_length _ _ _ Hnew). lia.
Qed.

Lemma collection_load_twice_witness :
  exists c1 c2,
    @CollectionPage_load Demo.env [] Demo.fs Demo.blog = Ok c1
    /\ @CollectionPage_load Demo.env [] Demo.fs c1 = Ok c2
    /\ map PostPage.name (CollectionPage.posts c1) = ["b"; "a"; "c"]
    /\ length (CollectionPage.posts c2) = 6%nat.
Proof.
  destruct (@CollectionPage_load Demo.env [] Demo.fs Demo.blog) as [c1|e] eqn:H1;
    [|vm_compute in H1; discriminate H1].
  destruct (@CollectionPage_load Demo.env [] Demo.fs c1) as [c2|e] eqn:H2.
  - exists c1, c2. split; [reflexivity|]. split; [exact H2|].
    assert (Hn : map PostPage.name (CollectionPage.posts c1) = ["b"; "a"; "c"]).
    { vm_compute in H1. injection H1 as <-. reflexivity. }
    split; [exact Hn|].
    rewrite (collection_load_twice (H := Demo.env) [] [] Demo.fs Demo.blog c1 c2 eq_refl H1 H2).
    rewrite <- (length_map PostPage.name), Hn. reflexivity.
  - exfalso. vm_compute in H1. injection H1 as <-. vm_compute in H2. discriminate H2.
Defined.

(** ** The build *)



Lemma map_result_first_raise {A B : Type} (f : A -> result B) (l1 l2 : list A) (r1 : list B)
    (x : A) (e : exn) :
  map_result f l1 = Ok r1 -> f x = Raise e -> map_result f (l1 ++ x :: l2) = Raise e.
Proof.
  revert r1. induction l1 as [|y l1 IH]; intros r1; cbn [map_result app].
  - intros _ ->. reflexivity.
  - intros Hr Hx. apply bind_ok_inv in Hr as (y' & -> & Hr). cbn [bind].
    apply bind_ok_inv in Hr as (r' & Hr & _). rewrite (IH r' Hr Hx). reflexivity.
Qed.

(** X17. An exception of the skeleton is the exception of the build. When
    the skeleton is prepared, the exception of the first page that fails to
    load is the exception of the build, whatever the pages after it. *)
Theorem build_site_first_error `{Env} (pages : list Page) (out_dir : string) (fs : FS) :
  match build_skeleton out_dir fs with
  | Raise e => build_site pages out_dir fs = Raise e
  | Ok fs1 =>
      forall before p after loaded e,
        pages = before ++ p :: after ->
        map_result (Page_load (navigation pages) fs1) before = Ok loaded ->
        Page_load (navigation pages) fs1 p = Raise e ->
        build_site pages out_dir fs = Raise e
  end.
Proof.
  unfold build_site. destruct (build_skeleton out_dir fs) as [fs1|e]; [|reflexivity].
  intros before p after loaded e Hp Hb He. cbn [bind].
  rewrite Hp at 2. rewrite (map_result_first_raise _ before after loaded p e Hb He).
  reflexivity.
Qed.

Lemma build_site_first_error_witness :
  @build_site Demo.env
    (Demo.pages ++ [ASinglePage (SinglePage_init "contact" "Contact" false);
                    ACollectionPage Demo.pair])
    "out" Demo.fs
  = Raise (FileNotFoundError "in/contact.md").
Proof.
  pose proof (build_site_first_error (H := Demo.env)
                (Demo.pages ++ [ASinglePage (SinglePage_init "contact" "Contact" false);
                                ACollectionPage Demo.pair])
                "out" Demo.fs) as Hb.
  cbn [build_skeleton Demo.env] in Hb.
  apply (Hb Demo.pages (ASinglePage (SinglePage_init "contact" "Contact" false))
            [ACollectionPage Demo.pair]
            (match map_result
                     (@Page_load Demo.env
                        (navigation
                           (Demo.pages
                            ++ [ASinglePage (SinglePage_init "contact" "Contact" false);
                                ACollectionPage Demo.pair])) Demo.fs) Demo.pages
             with Ok l => l | Raise _ => [] end)).
  - reflexivity.
  - vm_compute. reflexivity.
  - vm_compute. reflexivity.
Defined.

Lemma Page_load_nav_entry `{Env} (navs : list Nav) (fs : FS) (p p' : Page) :
  Page_load navs fs p = Ok p' -> is_PostPage p = false ->
  nav_entry p' = nav_entry p /\ Page_hidden p' = Page_hidden p.
Proof.
  destruct p as [s|s|c|q]; cbn [Page_load is_PostPage]; intros Hl Hp; try discriminate.
  - apply bind_ok_inv in Hl as (s' & Hs & [= <-]). unfold SinglePage_load in Hs.
    apply bind_ok_inv in Hs as (text & _ & [= <-]). split; reflexivity.
  - apply bind_ok_inv in Hl as (s' & Hs & [= <-]). unfold SinglePage_load in Hs.
    apply bind_ok_inv in Hs as (text & _ & [= <-]). split; reflexivity.
  - apply bind_ok_inv in Hl as (c' & Hc & [= <-]).
    apply CollectionPage_load_inv in Hc as (? & ? & ? & sorted & _ & _ & _ & _ & ->).
    split; reflexivity.
Qed.

(** X18. Loading single pages, front pages and collections changes neither
    their navigation entry nor their visibility: the navigation list of the
    loaded pages is the list computed before the load. *)
Theorem load_keeps_navigation `{Env} (navs : list Nav) (fs : FS) (pages pages' : list Page) :
  Forall (fun p => is_PostPage p = false) pages ->
  map_result (Page_load navs fs) pages = Ok pages' ->
  navigation pages' = navigation pages.
Proof.
  intros Hall Hl. apply map_result_Forall2 in Hl. unfold navigation.
  induction Hl as [|p p' l l' Hp Hl IH]; [reflexivity|].
  apply List.Forall_cons_iff in Hall as [Hnp Hall].
  destruct (Page_load_nav_entry navs fs p p' Hp Hnp) as [He Hh].
  cbn [List.filter]. rewrite Hh. destruct (negb (Page_hidden p)); cbn [map].
  - rewrite He, (IH Hall). reflexivity.
  - exact (IH Hall).
Qed.

Lemma load_keeps_navigation_witness :
  exists pages',
    map_result (@Page_load Demo.env (navigation Demo.pages) Demo.fs) Demo.pages = Ok pages'
    /\ navigation pages' = navigation Demo.pages.
Proof.
  destruct (map_result (@Page_load Demo.env (navigation Demo.pages) Demo.fs) Demo.pages)
    as [pages'|e] eqn:Hl; [|vm_compute in Hl; discriminate Hl].
  exists pages'. split; [reflexivity|].
  apply (load_keeps_navigation (H := Demo.env) (navigation Demo.pages) Demo.fs); [|exact Hl].
  repeat (apply List.Forall_cons; [reflexivity|]). apply List.Forall_nil.
Defined.

(** *** The writes of the build *)















(** ** Loading a page again *)

Lemma metadata_step_assignment (kv : string * string) (p q : PostPage.t) :
  metadata_step kv p = Ok q ->
  exists u, assignment u /\ forall p', metadata_step kv p' = Ok (u p').
Proof.
  destruct kv as [k v]. unfold metadata_step.
  destruct (String.eqb k "title"); [intros _; eexists; split; [apply assign_title|reflexivity]|].
  destruct (String.eqb k "subtitle");
    [intros _; eexists; split; [apply assign_subtitle|reflexivity]|].
  destruct (String.eqb k "date").
  - destruct (datetime.strptime v) as [dt|err]; cbn [bind]; [|discriminate].
    intros _. eexists. split; [apply (assign_date dt)|reflexivity].
  - destruct (String.eqb k "hidden");
      [|intros _; eexists; split; [apply assign_nothing|reflexivity]].
    destruct (String.eqb (str.lower v) "true"); intros _; eexists;
      (split; [|reflexivity]); [apply assign_hidden | apply assign_nothing].
Qed.

Lemma metadata_loop_assignments (md : list (string * string)) (p q : PostPage.t) :
  for_each metadata_step md p = Ok q ->
  exists us, Forall assignment us
    /\ forall p', for_each metadata_step md p' = Ok (assign_all us p').
Proof.
  revert p. induction md as [|kv md IH]; intros p; cbn [for_each].
  - intros _. exists []. split; [constructor | reflexivity].
  - intros Hq. apply bind_ok_inv in Hq as (p1 & H1 & Hq).
    destruct (metadata_step_assignment kv p p1 H1) as (u & Hu & Hstep).
    destruct (IH p1 Hq) as (us & Hus & Hloop).
    exists (u :: us). split; [constructor; assumption|].
    intros p'. rewrite Hstep. cbn [bind]. apply Hloop.
Qed.

(** Two assignments commute, or the second overwrites the first. *)
Lemma assignment_pair (u v : PostPage.t -> PostPage.t) :
  assignment u -> assignment v ->
  (forall x, v (u x) = v x) \/ (forall x, v (u x) = u (v x)).
Proof.
  intros [a|a|a| |] [b|b|b| |];
    first [left; intros x; reflexivity | right; intros x; reflexivity].
Qed.

Lemma assign_all_absorb (u : PostPage.t -> PostPage.t) (us : list (PostPage.t -> PostPage.t)) :
  assignment u -> Forall assignment us ->
  forall x, u (assign_all us (u x)) = u (assign_all us x).
Proof.
  intros Hu Hus. induction Hus as [|v us Hv Hus IH]; intros x; cbn [assign_all fold_left].
  - destruct Hu; reflexivity.
  - fold (assign_all us (v (u x))). fold (assign_all us (v x)).
    destruct (assignment_pair u v Hu Hv) as [E|E]; rewrite E; [reflexivity | apply IH].
Qed.

Lemma assign_all_snoc (us : list (PostPage.t -> PostPage.t)) (u : PostPage.t -> PostPage.t)
    (x : PostPage.t) :
  assign_all (us ++ [u]) x = u (assign_all us x).
Proof. unfold assign_all. rewrite fold_left_app. reflexivity. Qed.

Lemma assign_all_idempotent (us : list (PostPage.t -> PostPage.t)) :
  Forall assignment us ->
  forall x, assign_all us (assign_all us x) = assign_all us x.
Proof.
  induction us as [|u us IH] using rev_ind; intros Hus x; [reflexivity|].
  apply Forall_app in Hus as [Hus Hu]. apply List.Forall_cons_iff in Hu as [Hu _].
  rewrite !assign_all_snoc. rewrite (assign_all_absorb u us Hu Hus). rewrite (IH Hus).
  reflexivity.
Qed.

Lemma assignment_content_output (u : PostPage.t -> PostPage.t) (c : option Markdown)
    (o : option string) (x : PostPage.t) :
  assignment u ->
  u (PostPage.set_output o (PostPage.set_content c x))
  = PostPage.set_output o (PostPage.set_content c (u x)).
Proof. intros []; reflexivity. Qed.

Lemma assign_all_content_output (us : list (PostPage.t -> PostPage.t)) (c : option Markdown)
    (o : option string) :
  Forall assignment us ->
  forall x, assign_all us (PostPage.set_output o (PostPage.set_content c x))
            = PostPage.set_output o (PostPage.set_content c (assign_all us x)).
Proof.
  intros Hus. induction Hus as [|u us Hu Hus IH]; intros x; [reflexivity|].
  cbn [assign_all fold_left].
  fold (assign_all us (u (PostPage.set_output o (PostPage.set_content c x)))).
  fold (assign_all us (u x)).
  rewrite (assignment_content_output u c o x Hu). apply IH.
Qed.

Lemma assignment_src (u : PostPage.t -> PostPage.t) (x : PostPage.t) :
  assignment u -> PostPage.src (u x) = PostPage.src x.
Proof. intros []; reflexivity. Qed.

(** X21. A second load of a single page or of a post from the same files
    changes its output only: every other attribute is as the first load left
    it, and the output is the page template on the page as loaded. *)
Theorem load_again_rerenders `{Env} (navs navs' : list Nav) (fs : FS) :
  (forall cls s s',
     SinglePage_load cls navs fs s = Ok s' ->
     SinglePage_load cls navs' fs s'
     = Ok (SinglePage.set_output (Some (page_template_render navs' (cls s'))) s'))
  /\ (forall p q,
        PostPage_load navs fs p = Ok q ->
        PostPage_load navs' fs q
        = Ok (PostPage.set_output (Some (page_template_render navs' (APostPage q))) q)).
Proof.
  split.
  - intros cls s s' Hs. unfold SinglePage_load in *.
    apply bind_ok_inv in Hs as (text & Ht & [= <-]).
    cbn [SinglePage.src SinglePage.set_output SinglePage.set_content].
    rewrite Ht. reflexivity.
  - intros p q Hq.
    apply PostPage_load_inv in Hq as (text & q0 & Ht & Hm & ->).
    destruct (metadata_loop_assignments _ _ _ Hm) as (us & Hus & Hloop).
    assert (Hq0 : q0 = assign_all us p).
    { rewrite Hloop in Hm. injection Hm as <-. reflexivity. }
    assert (Hsrc : PostPage.src q0 = PostPage.src p).
    { destruct (metadata_loop_identity _ _ _ Hm) as (_ & _ & Hs & _). exact Hs. }
    set (c := Some (post_content text)).
    set (o := Some (page_template_render navs (APostPage (PostPage.set_content c q0)))).
    rewrite (PostPage_load_eq navs' fs _ text)
      by (cbn [PostPage.src PostPage.set_output PostPage.set_content]; rewrite Hsrc; exact Ht).
    rewrite Hloop. cbn [bind].
    rewrite (assign_all_content_output us c o Hus q0), Hq0, (assign_all_idempotent us Hus p).
    reflexivity.
Qed.

Lemma load_again_rerenders_witness :
  exists q, @PostPage_load Demo.env [] Demo.fs Demo.post_a = Ok q
    /\ @PostPage_load Demo.env [] Demo.fs q = Ok q.
Proof.
  destruct (@PostPage_load Demo.env [] Demo.fs Demo.post_a) as [q|e] eqn:Hq;
    [|vm_compute in Hq; discriminate Hq].
  exists q. split; [reflexivity|].
  rewrite (proj2 (load_again_rerenders (H := Demo.env) [] [] Demo.fs) Demo.post_a q Hq).
  vm_compute in Hq. injection Hq as <-. reflexivity.
Defined.

(** ** The identifier of a file name *)

Lemma str_take_drop (n : nat) (s : string) : str.take n s +:+ str.drop n s = s.
Proof.
  revert s. induction n as [|n IH]; intros s; [destruct s; reflexivity|].
  destruct s as [|a s]; [reflexivity|]. cbn [str.take str.drop].
  change (String a (str.take n s) +:+ str.drop n s)
    with (String a (str.take n s +:+ str.drop n s)).
  rewrite IH. reflexivity.
Qed.

(** [rfind] returns the start value, or the index of an occurrence with no
    occurrence after it. *)
Lemma rfind_from_split (c : ascii) (s : string) (i found : Z) :
  (str.rfind_from i c s found = found /\ ~ In c (str.chars s))
  \/ exists s1 s2, s = s1 +:+ String c s2
       /\ str.rfind_from i c s found = i + Z.of_nat (String.length s1)
       /\ ~ In c (str.chars s2).
Proof.
  revert i found. induction s as [|a s IH]; intros i found; cbn [str.rfind_from].
  - left. split; [reflexivity | intros []].
  - destruct (IH (i + 1) (if Ascii.eqb a c then i else found))
      as [[Hr Hno]|(s1 & s2 & -> & Hr & Hno)].
    + destruct (Ascii.eqb_spec a c) as [->|Hac].
      * right. exists "", s. split; [reflexivity|]. split; [|exact Hno].
        rewrite Hr. cbn. lia.
      * left. split; [exact Hr|]. intros [E|E]; [exact (Hac E) | exact (Hno E)].
    + right. exists (String a s1), s2. split; [reflexivity|]. split; [|exact Hno].
      rewrite Hr. cbn [String.length]. lia.
Qed.

Lemma rfind_from_In (c : ascii) (s : string) (i found : Z) :
  In c (str.chars s) -> i <= str.rfind_from i c s found.
Proof.
  intros Hin. destruct (rfind_from_split c s i found) as [[_ Hno]|(s1 & s2 & _ & -> & _)];
    [contradiction | lia].
Qed.

(** X22. [os.path.splitext] cuts the path in two parts that concatenate to
    the path. The extension is empty, or it starts at the last dot, has no
    other dot and no separator, and the root is then not empty. The
    identifier of a file name is empty for the empty name only. *)
Theorem splitext_parts (p : string) :
  let root := fst (os_path.splitext p) in
  let ext := snd (os_path.splitext p) in
  root +:+ ext = p
  /\ (ext = ""
      \/ root <> ""
         /\ exists e, ext = String "." e
              /\ ~ In "."%char (str.chars e) /\ ~ In "/"%char (str.chars e))
  /\ (post_identifier p = "" <-> p = "").
Proof.
  cbn zeta.
  assert (Hparts :
            fst (os_path.splitext p) +:+ snd (os_path.splitext p) = p
            /\ (snd (os_path.splitext p) = ""
                \/ fst (os_path.splitext p) <> ""
                   /\ exists e, snd (os_path.splitext p) = String "." e
                        /\ ~ In "."%char (str.chars e) /\ ~ In "/"%char (str.chars e))).
  { unfold os_path.splitext.
    destruct (str.rfind p "/" <? str.rfind p ".") eqn:Hlt;
      [|cbn [fst snd]; split; [apply append_nil | left; reflexivity]].
    destruct (os_path.has_non_dot _ _) eqn:Hnd;
      [|cbn [fst snd]; split; [apply append_nil | left; reflexivity]].
    cbn [fst snd]. split; [apply str_take_drop|]. right.
    apply Z.ltb_lt in Hlt. unfold str.rfind in *.
    destruct (rfind_from_split "." p 0 (-1)) as [[Hr _]|(s1 & s2 & Hp & Hr & Hno)].
    - (* no dot: the index of the separator would be below -1 *)
      exfalso. rewrite Hr in Hlt.
      destruct (rfind_from_split "/" p 0 (-1)) as [[Hs _]|(t1 & t2 & _ & Hs & _)]; lia.
    - rewrite Hr in *. rewrite Z.add_0_l, Nat2Z.id in *.
      assert (Hsep : -1 <= str.rfind_from 0 "/" p (-1)).
      { destruct (rfind_from_split "/" p 0 (-1)) as [[Hs _]|(t1 & t2 & _ & Hs & _)]; lia. }
      split.
      + (* the stem has a character other than the dot *)
        destruct s1 as [|a s1].
        * exfalso. cbn [String.length] in Hnd, Hlt.
          replace (Z.to_nat (Z.of_nat 0 - (str.rfind_from 0 "/" p (-1) + 1))) with 0%nat
            in Hnd by lia.
          cbn [os_path.has_non_dot] in Hnd. discriminate.
        * rewrite Hp. cbn [String.length str.take].
          change (String a s1 +:+ String "." s2) with (String a (s1 +:+ String "." s2)).
          cbn [str.take]. discriminate.
      + exists s2. rewrite Hp.
        split; [apply str_drop_app|]. split; [exact Hno|].
        intros Hin. rewrite Hp in Hlt.
        rewrite rfind_from_app in Hlt. cbn [str.rfind_from] in Hlt.
        pose proof (rfind_from_In "/" s2 (0 + Z.of_nat (String.length s1) + 1)
                      (if Ascii.eqb "." "/" then 0 + Z.of_nat (String.length s1)
                       else str.rfind_from 0 "/" s1 (-1)) Hin) as Hge.
        lia. }
  destruct Hparts as [Hcat Hext]. split; [exact Hcat|]. split; [exact Hext|].
  unfold post_identifier. split.
  - intros Hroot. destruct Hext as [He|[Hne _]]; [|contradiction].
    rewrite Hroot, He in Hcat. symmetry. exact Hcat.
  - intros ->. reflexivity.
Qed.
